(** * Selenium web-scraping demo: a shallow embedding of the scrape-and-merge script

    The script drives one browser session through a fixed sequence of
    pages for every ticker of a table, collects two texts per ticker in
    two global lists, inserts the lists as two columns of the table and
    writes the table to a file.

    The embedding follows the script cell by cell:
    - Python text is a [string]; its characters are read as the code
      points below 256;
    - an exception is a value of [exn]; a statement is a function from the
      world to an outcome and a world, so that a raising statement keeps
      every effect it had before it raised;
    - the browser is an interface ([Browser]); every call made on the
      driver is recorded in the world's [trace], in call order;
    - the globals [one_mo_vals] and [ytd_vals] are fields of the world;
    - the file system is a finite map from paths to parsed tables;
    - pandas' reader is an interface ([Pandas]) with what holds of it on
      a table file; a cell of a frame is a [Value], known by the text
      [str()] gives for it and the text [to_csv] writes for it. *)

From Stdlib Require Import String Ascii List Arith Bool Lia.
From stdpp Require Import base tactics option list strings pretty gmap.

Local Open Scope string_scope.
Local Open Scope list_scope.
Local Open Scope nat_scope.

(** ** Python text *)

(** The double-quote character, which XPath attribute tests contain. *)
Definition dq : string := String (ascii_of_nat 34) EmptyString.

(** The upper-case letters among the code points below 256: A..Z and
    the Latin-1 capitals (192..222 except the multiplication sign 215). *)
Definition is_upper (c : ascii) : bool :=
  let n := nat_of_ascii c in
  ((65 <=? n) && (n <=? 90)) || ((192 <=? n) && (n <=? 222) && negb (n =? 215)).

(** [str.lower] on one character: an upper-case letter moves 32 code
    points up, any other character stays. *)
Definition lower_char (c : ascii) : ascii :=
  if is_upper c then ascii_of_nat (nat_of_ascii c + 32) else c.

(** [str.lower]. *)
Fixpoint lower (s : string) : string :=
  match s with
  | EmptyString => EmptyString
  | String c s' => String (lower_char c) (lower s')
  end.

(** [str(x)] for an [x] that is already text.  The values of a frame
    reach [scraper] as the texts [str()] gives for them, see
    [column_values]. *)
Definition str (s : string) : string := s.







(** ** Exceptions and statements *)

(** The exceptions the script can meet.  The demo's only handler is a bare
    [except:], which makes no difference between them. *)
Inductive exn : Type :=
| NoSuchElementException (locator : string)
| WebDriverException (msg : string)
| FileNotFoundError (path : string)
| ParserError
| EmptyDataError
| KeyError (key : string)
| ValueError (msg : string)
| IndexError (msg : string).

Inductive outcome (A : Type) : Type :=
| Ret (a : A)
| Raise (e : exn).
Arguments Ret {A} a.
Arguments Raise {A} e.

(** Selenium's [By] strategies; the script only uses [By.XPATH]. *)
Inductive By : Type := XPATH | ID | CLASS_NAME.

(** ** Tables and files *)

(** A parsed delimited file: the fields of the header line and of the
    data lines, blank lines left out. *)
Record Csv : Type := mkCsv {
  header : list string;
  records : list (list string)
}.

(** A value in a cell of a frame, as far as the script can observe it:
    the text [str()] gives for it and the text [to_csv] writes for it.
    For the float that pandas reads from 450.10 both are 450.1; for a
    missing value the first is nan and the second is empty. *)
Record Value : Type := mkValue {
  py_str : string;
  csv_text : string
}.

(** A Python [str] in a cell: both texts are the string itself. *)
Definition text_value (s : string) : Value := mkValue s s.

(** NaN, the missing value. *)
Definition nan_value : Value := mkValue "nan" EmptyString.

(** A pandas DataFrame, row-major: the column labels and, for every row,
    its index value and its cells. *)
Record DataFrame : Type := mkDataFrame {
  index_name : string;
  columns : list string;
  rows : list (Value * list Value)
}.

(** Every data line has as many fields as the header. *)
Definition rectangular (f : Csv) : bool :=
  forallb (fun r => length r =? length (header f)) (records f).

(** A label that ends in a digit, as the labels do that pandas makes up
    for a repeated label ([Name.1]) or a blank one ([Unnamed: 0]). *)
Fixpoint ends_in_digit (s : string) : bool :=
  match s with
  | EmptyString => false
  | String c EmptyString => (48 <=? nat_of_ascii c) && (nat_of_ascii c <=? 57)
  | String _ s' => ends_in_digit s'
  end.

(** [pd.read_csv(_, index_col=0)] on the content of a file.  What it
    makes of the cells (numbers, missing values, texts), of repeated or
    blank labels and of lines shorter or longer than the header is
    pandas' business and left open.  What is used of it: a frame it
    returns has rows of the width of its columns; and a table file, with a
    header and every data line of the header's width, is read into a frame
    with one row per data line and one column per label after the first,
    each under the file's label or under one pandas made up. *)
Class Pandas : Type := {
  pd_read_csv : Csv -> outcome DataFrame;
  pd_frame_rectangular :
    forall f df r,
      pd_read_csv f = Ret df -> r ∈ rows df -> length r.2 = length (columns df);
  pd_table_read :
    forall f,
      header f <> [] -> rectangular f = true ->
      exists df,
        pd_read_csv f = Ret df
        /\ length (columns df) + 1 = length (header f)
        /\ length (rows df) = length (records f)
        /\ forall i x,
             columns df !! i = Some x ->
             header f !! (S i) = Some x \/ ends_in_digit x = true
}.

(** Position of the first occurrence of a label. *)
Fixpoint position (name : string) (l : list string) : option nat :=
  match l with
  | [] => None
  | x :: l' => if String.eqb x name then Some 0 else S <$> position name l'
  end.

(** [l[:n] + [x] + l[n:]] *)
Definition insert_at {A} (n : nat) (x : A) (l : list A) : list A :=
  take n l ++ x :: drop n l.

(** ** The browser session *)

(** What the script needs of a session: load a URL, find an element,
    click an element, read an element's text, set the implicit wait.
    Every operation may raise and may change the session either way. *)
Class Browser (B Elem : Type) : Type := {
  br_get : string -> B -> outcome unit * B;
  br_find_element : By -> string -> B -> outcome Elem * B;
  br_click : Elem -> B -> outcome unit * B;
  br_text : Elem -> B -> outcome string * B;
  br_implicitly_wait : nat -> B -> outcome unit * B
}.

(** The calls made on the driver. *)
Inductive action (Elem : Type) : Type :=
| AGet (url : string)
| AFind (by_ : By) (locator : string)
| AClick (e : Elem)
| AText (e : Elem)
| AWait (seconds : nat).
Arguments AGet {Elem} url.
Arguments AFind {Elem} by_ locator.
Arguments AClick {Elem} e.
Arguments AText {Elem} e.
Arguments AWait {Elem} seconds.

(** The world of the script: the session, the calls made on it so far,
    the two global lists and the files. *)
Record World (B Elem : Type) : Type := mkWorld {
  driver : B;
  trace : list (action Elem);
  one_mo_vals : list string;
  ytd_vals : list string;
  fs : gmap string Csv
}.
Arguments mkWorld {B Elem} _ _ _ _ _.
Arguments driver {B Elem} _.
Arguments trace {B Elem} _.
Arguments one_mo_vals {B Elem} _.
Arguments ytd_vals {B Elem} _.
Arguments fs {B Elem} _.

(** A statement that yields an [A]. *)
Definition M (B Elem A : Type) : Type := World B Elem -> outcome A * World B Elem.

Definition ret {B Elem A} (a : A) : M B Elem A := fun w => (Ret a, w).

Definition raise {B Elem A} (e : exn) : M B Elem A := fun w => (Raise e, w).

Definition bind {B Elem A C} (m : M B Elem A) (k : A -> M B Elem C) : M B Elem C :=
  fun w =>
    match m w with
    | (Ret a, w') => k a w'
    | (Raise e, w') => (Raise e, w')
    end.

(** [try: body / except: handler] with a bare [except]: whatever the body
    raised, the handler runs in the world the body left behind. *)
Definition try_except {B Elem A} (body handler : M B Elem A) : M B Elem A :=
  fun w =>
    match body w with
    | (Ret a, w') => (Ret a, w')
    | (Raise _, w') => handler w'
    end.

Declare Scope stmt_scope.
Delimit Scope stmt_scope with stmt.
Notation "x <- m ;; k" := (bind m (fun x => k))
  (at level 20, m at level 99, k at level 200, only parsing) : stmt_scope.
Notation "' p <- m ;; k" := (bind m (fun x => match x with p => k end))
  (at level 20, p pattern, m at level 99, k at level 200, only parsing) : stmt_scope.
Notation "m ;; k" := (bind m (fun _ => k))
  (at level 100, k at level 200, right associativity, only parsing) : stmt_scope.

(** [for x in l: f(x)] *)
Fixpoint for_each {B Elem A} (f : A -> M B Elem unit) (l : list A) : M B Elem unit :=
  match l with
  | [] => ret tt
  | x :: l' => bind (f x) (fun _ => for_each f l')
  end.

Section Script.
Context {B Elem : Type} `{Browser B Elem} `{Pandas}.

Abbreviation Stmt := (M B Elem).
Abbreviation W := (World B Elem).

Local Open Scope stmt_scope.

(** *** Calls on the driver: the call is recorded, then made. *)

Definition call {A} (a : action Elem) (op : B -> outcome A * B) : Stmt A :=
  fun w =>
    let '(r, b) := op (driver w) in
    (r, mkWorld b (trace w ++ [a]) (one_mo_vals w) (ytd_vals w) (fs w)).

Definition driver_get (url : string) : Stmt unit :=
  call (AGet url) (br_get url).

Definition find_element (by_ : By) (locator : string) : Stmt Elem :=
  call (AFind by_ locator) (br_find_element by_ locator).

Definition click (e : Elem) : Stmt unit :=
  call (AClick e) (br_click e).

Definition text (e : Elem) : Stmt string :=
  call (AText e) (br_text e).

Definition implicitly_wait (seconds : nat) : Stmt unit :=
  call (AWait seconds) (br_implicitly_wait seconds).

(** *** The two global lists *)

Definition one_mo_vals_append (v : string) : Stmt unit :=
  fun w => (Ret tt, mkWorld (driver w) (trace w) (one_mo_vals w ++ [v]) (ytd_vals w) (fs w)).

Definition ytd_vals_append (v : string) : Stmt unit :=
  fun w => (Ret tt, mkWorld (driver w) (trace w) (one_mo_vals w) (ytd_vals w ++ [v]) (fs w)).

(** [one_mo_vals = []; ytd_vals = []] *)
Definition reset_lists : Stmt unit :=
  fun w => (Ret tt, mkWorld (driver w) (trace w) [] [] (fs w)).

Definition read_one_mo_vals : Stmt (list string) := fun w => (Ret (one_mo_vals w), w).
Definition read_ytd_vals : Stmt (list string) := fun w => (Ret (ytd_vals w), w).

(** *** The locators of the script *)

Definition search_prefix : string :=
  "https://www.morningstar.com/search/us-securities?query=".

Definition link_xpath : string :=
  "//*[@id=" +:+ dq +:+ "__layout" +:+ dq +:+ "]/div/div/div[2]/div[3]/main/div/div/div[1]/section/div[1]/a".

Definition etf_performance_xpath : string :=
  "//*[@id=" +:+ dq +:+ "etf__tab-performance" +:+ dq +:+ "]/a/span".

Definition etf_monthly_xpath : string :=
  "//*[@id=" +:+ dq +:+ "monthly" +:+ dq +:+ "]".

Definition etf_one_mo_xpath : string :=
  "//*[@id=" +:+ dq +:+ "__layout" +:+ dq +:+ "]/div/div/div[2]/div[3]/div/div[2]/main/div/div/div[1]/section/sal-components/div/sal-components-funds-performance/div/div[1]/div/div/div/div[2]/div[1]/section[2]/div/div/div/div/div[2]/div[1]/div/table/tbody/tr[1]/td[2]".

Definition etf_ytd_xpath : string :=
  "//*[@id=" +:+ dq +:+ "__layout" +:+ dq +:+ "]/div/div/div[2]/div[3]/div/div[2]/main/div/div/div[1]/section/sal-components/div/sal-components-funds-performance/div/div[1]/div/div/div/div[2]/div[1]/section[2]/div/div/div/div/div[2]/div[1]/div/table/tbody/tr[1]/td[5]".

Definition fund_performance_xpath : string :=
  "//*[@id=" +:+ dq +:+ "performance" +:+ dq +:+ "]/a/span".

Definition fund_monthly_xpath : string :=
  "//*[@id=" +:+ dq +:+ "monthly" +:+ dq +:+ "]".

Definition fund_one_mo_xpath : string :=
  "/html/body/div[2]/div/div/div/div[2]/div[3]/div/div[2]/main/div/div/div[1]/section/sal-components/div/sal-components-funds-performance/div/div[1]/div/div/div/div[2]/div[1]/section[2]/div/div/div/div/div[2]/div[1]/div/table/tbody/tr[1]/td[2]".

Definition fund_ytd_xpath : string :=
  "/html/body/div[2]/div/div/div/div[2]/div[3]/div/div[2]/main/div/div/div[1]/section/sal-components/div/sal-components-funds-performance/div/div[1]/div/div/div/div[2]/div[1]/section[2]/div/div/div/div/div[2]/div[1]/div/table/tbody/tr[1]/td[5]".

(** *** [scraper] *)

(** The URL built on the first line of [scraper]. *)
Definition search_url (ticker_name : string) : string :=
  search_prefix +:+ lower (str ticker_name).

(** The statements before the [try]: load the search page, follow the
    first result, set the wait. *)
Definition open_detail_page (ticker_name : string) : Stmt unit :=
  let url := search_url ticker_name in
  driver_get url ;;
  link <- find_element XPATH link_xpath ;;
  click link ;;
  implicitly_wait 5.

(** The body of the [try]: the ETF layout. *)
Definition etf_layout : Stmt (string * string) :=
  performance <- find_element XPATH etf_performance_xpath ;;
  click performance ;;
  implicitly_wait 5 ;;
  monthly_button <- find_element XPATH etf_monthly_xpath ;;
  click monthly_button ;;
  implicitly_wait 5 ;;
  one_mo_cell <- find_element XPATH etf_one_mo_xpath ;;
  one_mo <- text one_mo_cell ;;
  ytd_cell <- find_element XPATH etf_ytd_xpath ;;
  ytd <- text ytd_cell ;;
  ret (one_mo, ytd).

(** The body of the [except]: the fund layout. *)
Definition fund_layout : Stmt (string * string) :=
  performance <- find_element XPATH fund_performance_xpath ;;
  click performance ;;
  implicitly_wait 5 ;;
  monthly_button <- find_element XPATH fund_monthly_xpath ;;
  click monthly_button ;;
  implicitly_wait 5 ;;
  one_mo_cell <- find_element XPATH fund_one_mo_xpath ;;
  one_mo <- text one_mo_cell ;;
  ytd_cell <- find_element XPATH fund_ytd_xpath ;;
  ytd <- text ytd_cell ;;
  ret (one_mo, ytd).

(** The two texts [scraper] holds in [one_mo] and [ytd] when it reaches
    its last two lines. *)
Definition scrape (ticker_name : string) : Stmt (string * string) :=
  open_detail_page ticker_name ;;
  try_except etf_layout fund_layout.

Definition scraper (ticker_name : string) : Stmt unit :=
  ' (one_mo, ytd) <- scrape ticker_name ;;
  one_mo_vals_append one_mo ;;
  ytd_vals_append ytd.

(** *** The loop over the tickers *)

Definition batch (df_tickers : list string) : Stmt unit :=
  for_each scraper df_tickers.

(** *** pandas *)

(** [pd.read_csv(path, index_col=0)]: the file must be there; what is
    made of its content is pandas'. *)
Definition read_csv (path : string) : Stmt DataFrame :=
  fun w =>
    match fs w !! path with
    | None => (Raise (FileNotFoundError path), w)
    | Some f => (pd_read_csv f, w)
    end.

(** [df[[name]].name.values.tolist()]: the values of the column [name], in
    row order.  The script hands each of them to [scraper], which uses
    nothing of it but [str(ticker_name)]; the list is held as these
    texts. *)
Definition column_values (name : string) (df : DataFrame) : Stmt (list string) :=
  match position name (columns df) with
  | None => raise (KeyError name)
  | Some i => ret (map (fun r => py_str (nth i r.2 nan_value)) (rows df))
  end.

(** [df.insert(loc, column, value)] for a list of Python strings:
    refuses a label that exists; gives a frame without rows one row of
    missing values per given value; refuses a value list whose length is
    not the number of rows, and a position beyond the last column;
    otherwise puts the label at position [loc] of the columns and the
    i-th value at position [loc] of the i-th row. *)
Definition df_insert (loc : nat) (column : string) (value : list string)
    (df : DataFrame) : Stmt DataFrame :=
  if bool_decide (column ∈ columns df) then raise (ValueError "already exists")
  else
    let base :=
      match rows df, value with
      | [], _ :: _ =>
          imap (fun i _ => (text_value (pretty i),
                            replicate (length (columns df)) nan_value)) value
      | _, _ => rows df
      end in
    if negb (length value =? length base) then raise (ValueError "length mismatch")
    else if negb (loc <=? length (columns df)) then raise (IndexError "out of bounds")
    else ret (mkDataFrame (index_name df)
                (insert_at loc column (columns df))
                (zip_with (fun r v => (r.1, insert_at loc (text_value v) r.2)) base value)).

(** [df.to_csv(path, index=False)]: writes the columns and, for every
    row, the texts of its cells, not the index. *)
Definition to_csv (path : string) (df : DataFrame) : Stmt unit :=
  fun w =>
    (Ret tt, mkWorld (driver w) (trace w) (one_mo_vals w) (ytd_vals w)
               (<[path := mkCsv (columns df)
                            (map (fun r => map csv_text r.2) (rows df))]> (fs w))).

(** *** The script, cell by cell *)

Definition input_path : string := "demo_stock_data.csv".
Definition output_path : string := "updated_stonksdata.csv".

(** In[3], In[7], In[8]: load the table, empty the two lists, take the
    tickers. *)
Definition prepare : Stmt (DataFrame * list string) :=
  df <- read_csv input_path ;;
  reset_lists ;;
  df_tickers <- column_values "Ticker" df ;;
  ret (df, df_tickers).

(** In[13], In[14]: insert the two lists as columns 4 and 5, write the
    table. *)
Definition merge_and_write (df : DataFrame) : Stmt unit :=
  one_mo <- read_one_mo_vals ;;
  df1 <- df_insert 4 "Monthly" one_mo df ;;
  ytd <- read_ytd_vals ;;
  df2 <- df_insert 5 "YTD" ytd df1 ;;
  to_csv output_path df2.

(** The run: In[3], In[7], In[8], then the loop of In[10], then In[13]
    and In[14]; an exception that nothing handles ends it. *)
Definition main : Stmt unit :=
  ' (df, df_tickers) <- prepare ;;
  batch df_tickers ;;
  merge_and_write df.

(** The world after In[7]: both lists empty. *)
Definition cleared (w : W) : W :=
  mkWorld (driver w) (trace w) [] [] (fs w).

(** The texts [str()] gives for the values of column [j] of a frame. *)
Definition ticker_texts (j : nat) (df : DataFrame) : list string :=
  map (fun r => py_str (nth j r.2 nan_value)) (rows df).

(** A row of the written table with the two scraped texts at positions
    4 and 5. *)
Definition merged_row (cells : list string) (one_mo ytd : string) : list string :=
  take 4 cells ++ one_mo :: ytd :: drop 4 cells.

(** The file In[14] writes for a frame with rows and two lists of texts. *)
Definition merged (df : DataFrame) (one_mo ytd : list string) : Csv :=
  mkCsv (insert_at 5 "YTD" (insert_at 4 "Monthly" (columns df)))
        (map (fun r => map csv_text r.2)
           (zip_with (fun r v => (r.1, insert_at 5 (text_value v) r.2))
              (zip_with (fun r v => (r.1, insert_at 4 (text_value v) r.2)) (rows df) one_mo)
              ytd)).

(** The world after In[14]. *)
Definition written (w : W) (out : Csv) : W :=
  mkWorld (driver w) (trace w) (one_mo_vals w) (ytd_vals w) (<[output_path := out]> (fs w)).

(** *** Reading a trace *)

(** The URLs loaded, in load order. *)
Fixpoint loads (tr : list (action Elem)) : list string :=
  match tr with
  | [] => []
  | AGet url :: tr' => url :: loads tr'
  | _ :: tr' => loads tr'
  end.

(** The monthly toggle, the trailing-returns table of either layout and
    the cell of its first data row at a given column. *)
Definition monthly_toggle_xpath : string :=
  "//*[@id=" +:+ dq +:+ "monthly" +:+ dq +:+ "]".

Definition etf_returns_table : string :=
  "//*[@id=" +:+ dq +:+ "__layout" +:+ dq +:+ "]/div/div/div[2]/div[3]/div/div[2]/main/div/div/div[1]/section/sal-components/div/sal-components-funds-performance/div/div[1]/div/div/div/div[2]/div[1]/section[2]/div/div/div/div/div[2]/div[1]/div/table".

Definition fund_returns_table : string :=
  "/html/body/div[2]/div/div/div/div[2]/div[3]/div/div[2]/main/div/div/div[1]/section/sal-components/div/sal-components-funds-performance/div/div[1]/div/div/div/div[2]/div[1]/section[2]/div/div/div/div/div[2]/div[1]/div/table".

Definition first_row_cell (table col : string) : string :=
  table +:+ "/tbody/tr[1]/td[" +:+ col +:+ "]".

(** The calls of one layout path that ran to its end: performance tab,
    monthly toggle, wait, the two cells. *)
Definition layout_calls (performance_xpath table : string)
    (performance monthly_button one_mo_cell ytd_cell : Elem) : list (action Elem) :=
  [ AFind XPATH performance_xpath; AClick performance; AWait 5;
    AFind XPATH monthly_toggle_xpath; AClick monthly_button; AWait 5;
    AFind XPATH (first_row_cell table "2"); AText one_mo_cell;
    AFind XPATH (first_row_cell table "5"); AText ytd_cell ].

(** The element [c] is what the locator found and [txt] is the text read
    from it right after. *)
Definition reads_cell (locator : string) (c : Elem) (txt : string) : Prop :=
  exists s0 s1 s2,
    br_find_element XPATH locator s0 = (Ret c, s1) /\ br_text c s1 = (Ret txt, s2).

(** *** Frames *)

(** [w'] is [w] after some calls on the driver and nothing else. *)
Definition browsed (w w' : W) : Prop :=
  one_mo_vals w' = one_mo_vals w /\ ytd_vals w' = ytd_vals w /\ fs w' = fs w
  /\ exists tr, trace w' = trace w ++ tr.

(** [w'] is [w] after some calls on the driver and as many appends to
    one list as to the other. *)
Definition advanced (w w' : W) : Prop :=
  fs w' = fs w
  /\ (exists tr, trace w' = trace w ++ tr)
  /\ (exists k, length (one_mo_vals w') = length (one_mo_vals w) + k
              /\ length (ytd_vals w') = length (ytd_vals w) + k).

Definition browses {A} (m : Stmt A) : Prop := forall w, browsed w (m w).2.
Definition advances {A} (m : Stmt A) : Prop := forall w, advanced w (m w).2.

(** A statement that loads no page. *)
Definition loadless {A} (m : Stmt A) : Prop :=
  forall w, loads (trace (m w).2) = loads (trace w).

(** The world after the two appends of [scraper]. *)
Definition recorded (w : W) (one_mo ytd : string) : W :=
  mkWorld (driver w) (trace w) (one_mo_vals w ++ [one_mo]) (ytd_vals w ++ [ytd]) (fs w).

(** How a scrape can end in an exception nobody handles: before the
    [try], or in the [except] branch after the [try] body raised. *)
Definition unhandled (ticker_name : string) (w : W) (e : exn) (w' : W) : Prop :=
  open_detail_page ticker_name w = (Raise e, w')
  \/ exists w1 e1 w2,
       open_detail_page ticker_name w = (Ret tt, w1)
       /\ etf_layout w1 = (Raise e1, w2)
       /\ fund_layout w2 = (Raise e, w').

(** A failure while loading the search URL, while locating the first
    result link, or while clicking it. *)
Inductive early_failure (ticker_name : string) (w : W) (e : exn) : Prop :=
| fail_get b :
    br_get (search_url ticker_name) (driver w) = (Raise e, b) ->
    early_failure ticker_name w e
| fail_find b1 b2 :
    br_get (search_url ticker_name) (driver w) = (Ret tt, b1) ->
    br_find_element XPATH link_xpath b1 = (Raise e, b2) ->
    early_failure ticker_name w e
| fail_click b1 link b2 b3 :
    br_get (search_url ticker_name) (driver w) = (Ret tt, b1) ->
    br_find_element XPATH link_xpath b1 = (Ret link, b2) ->
    br_click link b2 = (Raise e, b3) ->
    early_failure ticker_name w e.

End Script.

(** ** A recorded site, to run the script on *)

Module Stub.

(** A session over a recorded site: for every URL the site knows, the
    locators that resolve after loading it and the text of the element
    each one finds; and the page the session is on. *)
Record session : Type := mkSession {
  site : list (string * list (string * string));
  page : list (string * string)
}.

Fixpoint assoc {V} (k : string) (l : list (string * V)) : option V :=
  match l with
  | [] => None
  | (k', v) :: l' => if String.eqb k' k then Some v else assoc k l'
  end.

Definition get (url : string) (s : session) : outcome unit * session :=
  match assoc url (site s) with
  | Some p => (Ret tt, mkSession (site s) p)
  | None => (Raise (WebDriverException url), mkSession (site s) [])
  end.

(** An element is known by its text. *)
Definition find (by_ : By) (locator : string) (s : session) : outcome string * session :=
  match assoc locator (page s) with
  | Some txt => (Ret txt, s)
  | None => (Raise (NoSuchElementException locator), s)
  end.

#[global] Instance browser : Browser session string := {|
  br_get := get;
  br_find_element := find;
  br_click := fun _ s => (Ret tt, s);
  br_text := fun e s => (Ret e, s);
  br_implicitly_wait := fun _ s => (Ret tt, s)
|}.

(** A reader that keeps every label and every cell as the text it is,
    and reads nothing but table files. *)
Definition keep_row (r : list string) : Value * list Value :=
  (text_value (hd EmptyString r), map text_value (tl r)).

Definition keep_texts (f : Csv) : outcome DataFrame :=
  match header f with
  | [] => Raise EmptyDataError
  | name :: cols =>
      if rectangular f
      then Ret (mkDataFrame name cols (map keep_row (records f)))
      else Raise ParserError
  end.

(** The frame this reader makes of a table file. *)
Definition frame_of (f : Csv) : DataFrame :=
  mkDataFrame (hd EmptyString (header f)) (tl (header f)) (map keep_row (records f)).

#[global] Instance pandas : Pandas.
Proof.
  refine {| pd_read_csv := keep_texts |}.
  - intros f df r. unfold keep_texts.
    destruct (header f) as [|name cols] eqn:Hh; [discriminate|].
    destruct (rectangular f) eqn:Hr; [|discriminate].
    intros [= <-] Hin. cbn [rows columns] in *.
    apply list_elem_of_In, in_map_iff in Hin as (r0 & <- & Hin).
    unfold rectangular in Hr. rewrite forallb_forall in Hr.
    apply Hr, Nat.eqb_eq in Hin. rewrite Hh in Hin.
    cbn [keep_row snd]. rewrite length_map.
    destruct r0 as [|c r0]; simpl in *; lia.
  - intros f Hh Hr. unfold keep_texts.
    destruct (header f) as [|name cols]; [contradiction|]. rewrite Hr.
    eexists. split; [reflexivity|]. cbn [rows columns].
    split; [simpl; lia|]. split; [apply length_map|].
    intros i x Hi. left. exact Hi.
Defined.

Definition etf_page (one_mo ytd : string) : list (string * string) :=
  [ (link_xpath, "link"); (etf_performance_xpath, "Performance");
    (etf_monthly_xpath, "Monthly");
    (etf_one_mo_xpath, one_mo); (etf_ytd_xpath, ytd) ].

Definition fund_page (one_mo ytd : string) : list (string * string) :=
  [ (link_xpath, "link"); (fund_performance_xpath, "Performance");
    (fund_monthly_xpath, "Monthly");
    (fund_one_mo_xpath, one_mo); (fund_ytd_xpath, ytd) ].

(** A page with a result link and neither layout behind it. *)
Definition bare_page : list (string * string) := [ (link_xpath, "link") ].

Definition demo_site : list (string * list (string * string)) :=
  [ (search_url "SPY", etf_page "1.23" "10.45");
    (search_url "VFIAX", fund_page "0.98" "9.11");
    (search_url "ZZZ", bare_page) ].

(** The demo tables hold only cells that pandas reads and writes back as
    they are, so that a reader that keeps the texts agrees with it on
    them. *)
Definition demo_csv : Csv :=
  mkCsv [ "Id"; "Ticker"; "Name"; "Category"; "Price" ]
        [ [ "0"; "SPY"; "SPDR S&P 500 ETF Trust"; "ETF"; "450.1" ];
          [ "1"; "VFIAX"; "Vanguard 500 Index Admiral"; "Fund"; "415.2" ] ].

(** The same table with a ticker the site has no layout for in between. *)
Definition broken_csv : Csv :=
  mkCsv [ "Id"; "Ticker"; "Name"; "Category"; "Price" ]
        [ [ "0"; "SPY"; "SPDR S&P 500 ETF Trust"; "ETF"; "450.1" ];
          [ "1"; "ZZZ"; "No such security"; "ETF"; "0.5" ];
          [ "2"; "VFIAX"; "Vanguard 500 Index Admiral"; "Fund"; "415.2" ] ].

Definition world_with (f : Csv) : World session string :=
  mkWorld (mkSession demo_site []) [] [] [] {[ input_path := f ]}.

Definition demo_world : World session string := world_with demo_csv.
Definition broken_world : World session string := world_with broken_csv.

(** A table whose first column is the ticker column. *)
Definition ticker_first_csv : Csv :=
  mkCsv [ "Ticker"; "Name"; "Category"; "Price"; "Volume" ]
        [ [ "SPY"; "SPDR S&P 500 ETF Trust"; "ETF"; "450.1"; "1000" ] ].

(** A table with three columns after the first. *)
Definition narrow_csv : Csv :=
  mkCsv [ "Id"; "Ticker"; "Name"; "Category" ]
        [ [ "0"; "SPY"; "SPDR S&P 500 ETF Trust"; "ETF" ];
          [ "1"; "VFIAX"; "Vanguard 500 Index Admiral"; "Fund" ] ].

(** A table with a header and no row. *)
Definition empty_csv : Csv :=
  mkCsv [ "Id"; "Ticker"; "Name"; "Category"; "Price" ] [].

End Stub.

(** * Properties *)

Section Facts.
Context {B Elem : Type} `{Browser B Elem} `{Pandas}.

Abbreviation Stmt := (M B Elem).
Abbreviation W := (World B Elem).

Local Open Scope stmt_scope.

(** ** Statements *)

Lemma bind_Ret {A C} (m : Stmt A) (k : A -> Stmt C) w a w1 :
  m w = (Ret a, w1) -> bind m k w = k a w1.
Proof. unfold bind. intros ->. reflexivity. Qed.

Lemma bind_Raise {A C} (m : Stmt A) (k : A -> Stmt C) w e w1 :
  m w = (Raise e, w1) -> bind m k w = (Raise e, w1).
Proof. unfold bind. intros ->. reflexivity. Qed.

Lemma bind_Ret_inv {A C} (m : Stmt A) (k : A -> Stmt C) w c w' :
  bind m k w = (Ret c, w') ->
  exists a w1, m w = (Ret a, w1) /\ k a w1 = (Ret c, w').
Proof.
  unfold bind. destruct (m w) as [[a|e] w1]; intros Hk.
  - exists a, w1. split; [reflexivity | exact Hk].
  - discriminate.
Qed.

Lemma bind_assoc {A C D} (m : Stmt A) (k : A -> Stmt C) (k' : C -> Stmt D) w :
  bind (bind m k) k' w = bind m (fun a => bind (k a) k') w.
Proof. unfold bind. destruct (m w) as [[a|e] w1]; reflexivity. Qed.

Lemma bind_ext {A C} (m : Stmt A) (k k' : A -> Stmt C) w :
  (forall a w1, k a w1 = k' a w1) -> bind m k w = bind m k' w.
Proof. intros Hk. unfold bind. destruct (m w) as [[a|e] w1]; [apply Hk | reflexivity]. Qed.

Lemma try_except_Ret {A} (body handler : Stmt A) w a w1 :
  body w = (Ret a, w1) -> try_except body handler w = (Ret a, w1).
Proof. unfold try_except. intros ->. reflexivity. Qed.

Lemma try_except_Raise {A} (body handler : Stmt A) w e w1 :
  body w = (Raise e, w1) -> try_except body handler w = handler w1.
Proof. unfold try_except. intros ->. reflexivity. Qed.

Lemma call_Ret_inv {A} (a : action Elem) (op : B -> outcome A * B) w r w' :
  call a op w = (Ret r, w') ->
  exists b, op (driver w) = (Ret r, b)
            /\ w' = mkWorld b (trace w ++ [a]) (one_mo_vals w) (ytd_vals w) (fs w).
Proof.
  unfold call. destruct (op (driver w)) as [r' b]. intros Hc.
  injection Hc as -> <-. exists b. split; reflexivity.
Qed.

Lemma for_each_app {A} (f : A -> Stmt unit) (l1 l2 : list A) w :
  for_each f (l1 ++ l2) w = bind (for_each f l1) (fun _ => for_each f l2) w.
Proof.
  revert w. induction l1 as [|x l1 IH]; intros w; simpl.
  - reflexivity.
  - rewrite bind_assoc. apply bind_ext. intros _ w1. apply IH.
Qed.

(** ** Frames *)

Lemma browsed_refl (w : W) : browsed w w.
Proof.
  repeat split. exists []. symmetry. apply app_nil_r.
Qed.

Lemma browsed_trans (w1 w2 w3 : W) : browsed w1 w2 -> browsed w2 w3 -> browsed w1 w3.
Proof.
  intros (Ha & Hb & Hc & tr & Hd) (Ha' & Hb' & Hc' & tr' & Hd').
  repeat split; try congruence.
  exists (tr ++ tr'). rewrite Hd', Hd. symmetry. apply app_assoc.
Qed.

Lemma advanced_refl (w : W) : advanced w w.
Proof.
  split; [reflexivity|]. split.
  - exists []. symmetry. apply app_nil_r.
  - exists 0. split; lia.
Qed.

Lemma advanced_trans (w1 w2 w3 : W) : advanced w1 w2 -> advanced w2 w3 -> advanced w1 w3.
Proof.
  intros (Ha & (tr & Hb) & (k & Hc & Hd)) (Ha' & (tr' & Hb') & (k' & Hc' & Hd')).
  split; [congruence|]. split.
  - exists (tr ++ tr'). rewrite Hb', Hb. symmetry. apply app_assoc.
  - exists (k + k'). split; lia.
Qed.

Lemma browsed_advanced (w w' : W) : browsed w w' -> advanced w w'.
Proof.
  intros (Ha & Hb & Hc & Hd). split; [exact Hc|]. split; [exact Hd|].
  exists 0. rewrite Ha, Hb. split; lia.
Qed.

Lemma browses_ret {A} (a : A) : browses (ret a : Stmt A).
Proof. intros w. apply browsed_refl. Qed.

Lemma browses_call {A} (a : action Elem) (op : B -> outcome A * B) : browses (call a op).
Proof.
  intros w. unfold call. destruct (op (driver w)) as [r b]. simpl.
  repeat split. exists [a]. reflexivity.
Qed.

Lemma browses_bind {A C} (m : Stmt A) (k : A -> Stmt C) :
  browses m -> (forall a, browses (k a)) -> browses (bind m k).
Proof.
  intros Hm Hk w. specialize (Hm w). unfold bind.
  destruct (m w) as [[a|e] w1]; simpl in *.
  - eapply browsed_trans; [exact Hm | apply Hk].
  - exact Hm.
Qed.

Lemma browses_try_except {A} (body handler : Stmt A) :
  browses body -> browses handler -> browses (try_except body handler).
Proof.
  intros Hb Hh w. specialize (Hb w). unfold try_except.
  destruct (body w) as [[a|e] w1]; simpl in *.
  - exact Hb.
  - eapply browsed_trans; [exact Hb | apply Hh].
Qed.

Lemma advances_bind {A C} (m : Stmt A) (k : A -> Stmt C) :
  advances m -> (forall a, advances (k a)) -> advances (bind m k).
Proof.
  intros Hm Hk w. specialize (Hm w). unfold bind.
  destruct (m w) as [[a|e] w1]; simpl in *.
  - eapply advanced_trans; [exact Hm | apply Hk].
  - exact Hm.
Qed.

Lemma browses_advances {A} (m : Stmt A) : browses m -> advances m.
Proof. intros Hm w. apply browsed_advanced, Hm. Qed.

Create HintDb frames.
#[local] Hint Resolve browses_ret browses_call browses_try_except : frames.
#[local] Hint Extern 1 (browses (bind _ _)) => apply browses_bind; [|intros ?] : frames.
#[local] Hint Unfold driver_get find_element click text implicitly_wait : frames.

Lemma browses_open_detail_page t : browses (open_detail_page t).
Proof. unfold open_detail_page. autounfold with frames. auto 20 with frames. Qed.

Lemma browses_etf_layout : browses etf_layout.
Proof. unfold etf_layout. autounfold with frames. auto 30 with frames. Qed.

Lemma browses_fund_layout : browses fund_layout.
Proof. unfold fund_layout. autounfold with frames. auto 30 with frames. Qed.

Lemma browses_scrape t : browses (scrape t).
Proof.
  unfold scrape. apply browses_bind; [apply browses_open_detail_page | intros _].
  apply browses_try_except; [apply browses_etf_layout | apply browses_fund_layout].
Qed.

(** ** [scraper] *)

Lemma scraper_Ret t w one_mo ytd w1 :
  scrape t w = (Ret (one_mo, ytd), w1) ->
  scraper t w = (Ret tt, recorded w1 one_mo ytd).
Proof. intros Hs. unfold scraper. rewrite (bind_Ret _ _ _ _ _ Hs). reflexivity. Qed.

Lemma scraper_Raise t w e w1 :
  scrape t w = (Raise e, w1) -> scraper t w = (Raise e, w1).
Proof. intros Hs. unfold scraper. apply bind_Raise, Hs. Qed.

Lemma scraper_Ret_inv t w w' :
  scraper t w = (Ret tt, w') ->
  exists one_mo ytd w1,
    scrape t w = (Ret (one_mo, ytd), w1) /\ w' = recorded w1 one_mo ytd.
Proof.
  intros Hs. destruct (scrape t w) as [[[one_mo ytd]|e] w1] eqn:Hv.
  - rewrite (scraper_Ret _ _ _ _ _ Hv) in Hs. injection Hs as <-.
    exists one_mo, ytd, w1. split; reflexivity.
  - rewrite (scraper_Raise _ _ _ _ Hv) in Hs. discriminate.
Qed.

Lemma scrape_open_Raise t w e w1 :
  open_detail_page t w = (Raise e, w1) -> scrape t w = (Raise e, w1).
Proof. intros Ho. unfold scrape. apply bind_Raise, Ho. Qed.

Lemma scrape_etf_Ret t w w1 r w2 :
  open_detail_page t w = (Ret tt, w1) -> etf_layout w1 = (Ret r, w2) ->
  scrape t w = (Ret r, w2).
Proof.
  intros Ho He. unfold scrape. rewrite (bind_Ret _ _ _ _ _ Ho).
  apply try_except_Ret, He.
Qed.

Lemma scrape_etf_Raise t w w1 e w2 :
  open_detail_page t w = (Ret tt, w1) -> etf_layout w1 = (Raise e, w2) ->
  scrape t w = fund_layout w2.
Proof.
  intros Ho He. unfold scrape. rewrite (bind_Ret _ _ _ _ _ Ho).
  eapply try_except_Raise, He.
Qed.

Lemma unhandled_scrape t w e w' :
  unhandled t w e w' <-> scrape t w = (Raise e, w').
Proof.
  split.
  - intros [Ho | (w1 & e1 & w2 & Ho & He & Hf)].
    + apply scrape_open_Raise, Ho.
    + rewrite (scrape_etf_Raise _ _ _ _ _ Ho He). exact Hf.
  - intros Hs. destruct (open_detail_page t w) as [[[]|e0] w1] eqn:Ho.
    + destruct (etf_layout w1) as [[r|e1] w2] eqn:He.
      * rewrite (scrape_etf_Ret _ _ _ _ _ Ho He) in Hs. discriminate.
      * rewrite (scrape_etf_Raise _ _ _ _ _ Ho He) in Hs.
        right. exists w1, e1, w2. auto.
    + rewrite (scrape_open_Raise _ _ _ _ Ho) in Hs. injection Hs as -> ->.
      left. exact Ho.
Qed.

Lemma advanced_recorded (w w1 : W) one_mo ytd :
  browsed w w1 -> advanced w (recorded w1 one_mo ytd).
Proof.
  intros (Ha & Hb & Hc & Hd). split; [exact Hc|]. split; [exact Hd|].
  exists 1. simpl. rewrite !length_app, Ha, Hb. simpl. split; reflexivity.
Qed.

Lemma advances_scraper t : advances (scraper t).
Proof.
  intros w. pose proof (browses_scrape t w) as Hb.
  destruct (scrape t w) as [[[one_mo ytd]|e] w1] eqn:Hs; simpl in Hb.
  - rewrite (scraper_Ret _ _ _ _ _ Hs). simpl. apply advanced_recorded, Hb.
  - rewrite (scraper_Raise _ _ _ _ Hs). simpl. apply browsed_advanced, Hb.
Qed.

Lemma advances_for_each {A} (f : A -> Stmt unit) l :
  (forall x, advances (f x)) -> advances (for_each f l).
Proof.
  intros Hf. induction l as [|x l IH]; simpl.
  - intros w. apply advanced_refl.
  - apply advances_bind; [apply Hf | intros _; exact IH].
Qed.

Lemma advances_batch ts : advances (batch ts).
Proof. apply advances_for_each, advances_scraper. Qed.

Lemma batch_snoc_Raise l1 t l2 w w1 e w2 :
  batch l1 w = (Ret tt, w1) -> scraper t w1 = (Raise e, w2) ->
  batch (l1 ++ t :: l2) w = (Raise e, w2).
Proof.
  intros Hl Ht. unfold batch in *. rewrite for_each_app, (bind_Ret _ _ _ _ _ Hl).
  simpl. apply bind_Raise, Ht.
Qed.

Lemma scraper_lists t (w : W) :
  match scraper t w with
  | (Ret _, w') =>
      exists one_mo ytd,
        one_mo_vals w' = one_mo_vals w ++ [one_mo]
        /\ ytd_vals w' = ytd_vals w ++ [ytd]
  | (Raise _, w') =>
      one_mo_vals w' = one_mo_vals w /\ ytd_vals w' = ytd_vals w
  end.
Proof.
  pose proof (browses_scrape t w) as (Ha & Hb & _).
  destruct (scrape t w) as [[[one_mo ytd]|e] w1] eqn:Hs; simpl in Ha, Hb.
  - rewrite (scraper_Ret _ _ _ _ _ Hs). exists one_mo, ytd.
    simpl. rewrite Ha, Hb. split; reflexivity.
  - rewrite (scraper_Raise _ _ _ _ Hs). split; assumption.
Qed.

(** C9: a call of the scraper appends one value to each list when it
    returns and leaves both lists as they were when it raises; over any
    number of calls the two lists therefore grow by the same amount, so
    two lists of equal length stay of equal length. *)
Theorem accumulators_grow_together :
  (forall t (w : W),
     match scraper t w with
     | (Ret _, w') =>
         exists one_mo ytd,
           one_mo_vals w' = one_mo_vals w ++ [one_mo]
           /\ ytd_vals w' = ytd_vals w ++ [ytd]
     | (Raise _, w') =>
         one_mo_vals w' = one_mo_vals w /\ ytd_vals w' = ytd_vals w
     end)
  /\ (forall ts (w : W),
        exists k, length (one_mo_vals (batch ts w).2) = length (one_mo_vals w) + k
                  /\ length (ytd_vals (batch ts w).2) = length (ytd_vals w) + k).
Proof.
  split.
  - intros t w. apply scraper_lists.
  - intros ts w. pose proof (advances_batch ts w) as Hadv.
    unfold advanced in Hadv. destruct Hadv as (_ & _ & k & Hm & Hy).
    exists k. split; [exact Hm | exact Hy].
Qed.


(** ** The two layout paths *)

Ltac invert_run H :=
  repeat match type of H with
  | bind _ _ _ = (Ret _, _) =>
      let Hc := fresh "Hcall" in
      apply bind_Ret_inv in H; destruct H as (? & ? & Hc & H);
      apply call_Ret_inv in Hc; destruct Hc as (? & Hc & ->);
      cbn [driver trace one_mo_vals ytd_vals fs] in *
  end.

Lemma etf_cells :
  etf_one_mo_xpath = first_row_cell etf_returns_table "2"
  /\ etf_ytd_xpath = first_row_cell etf_returns_table "5".
Proof. split; reflexivity. Qed.

Lemma fund_cells :
  fund_one_mo_xpath = first_row_cell fund_returns_table "2"
  /\ fund_ytd_xpath = first_row_cell fund_returns_table "5".
Proof. split; reflexivity. Qed.

Lemma etf_layout_Ret_inv (w : W) one_mo ytd w' :
  etf_layout w = (Ret (one_mo, ytd), w') ->
  exists p m c1 c2,
    trace w' = trace w ++ layout_calls etf_performance_xpath etf_returns_table p m c1 c2
    /\ reads_cell (first_row_cell etf_returns_table "2") c1 one_mo
    /\ reads_cell (first_row_cell etf_returns_table "5") c2 ytd.
Proof.
  intros Hrun. unfold etf_layout in Hrun.
  unfold find_element, click, text, implicitly_wait in Hrun.
  invert_run Hrun. injection Hrun as -> -> <-.
  do 4 eexists. split; [|split].
  - cbn [trace]. rewrite <- !app_assoc. reflexivity.
  - do 3 eexists. split; eassumption.
  - do 3 eexists. split; eassumption.
Qed.

Lemma fund_layout_Ret_inv (w : W) one_mo ytd w' :
  fund_layout w = (Ret (one_mo, ytd), w') ->
  exists p m c1 c2,
    trace w' = trace w ++ layout_calls fund_performance_xpath fund_returns_table p m c1 c2
    /\ reads_cell (first_row_cell fund_returns_table "2") c1 one_mo
    /\ reads_cell (first_row_cell fund_returns_table "5") c2 ytd.
Proof.
  intros Hrun. unfold fund_layout in Hrun.
  unfold find_element, click, text, implicitly_wait in Hrun.
  invert_run Hrun. injection Hrun as -> -> <-.
  do 4 eexists. split; [|split].
  - cbn [trace]. rewrite <- !app_assoc. reflexivity.
  - do 3 eexists. split; eassumption.
  - do 3 eexists. split; eassumption.
Qed.

(** C7: both paths look the monthly toggle up by the same id, and a path
    that runs to its end has made exactly the calls of [layout_calls]: its
    two texts are read from the cells of the first row of its
    trailing-returns table at columns 2 (monthly) and 5 (YTD), the same
    row and the same columns in both layouts. *)
Theorem layouts_share_toggle_and_cells :
  etf_monthly_xpath = monthly_toggle_xpath
  /\ fund_monthly_xpath = monthly_toggle_xpath
  /\ (forall (w : W) one_mo ytd w',
        etf_layout w = (Ret (one_mo, ytd), w') ->
        exists p m c1 c2,
          trace w' = trace w ++ layout_calls etf_performance_xpath etf_returns_table p m c1 c2
          /\ reads_cell (first_row_cell etf_returns_table "2") c1 one_mo
          /\ reads_cell (first_row_cell etf_returns_table "5") c2 ytd)
  /\ (forall (w : W) one_mo ytd w',
        fund_layout w = (Ret (one_mo, ytd), w') ->
        exists p m c1 c2,
          trace w' = trace w ++ layout_calls fund_performance_xpath fund_returns_table p m c1 c2
          /\ reads_cell (first_row_cell fund_returns_table "2") c1 one_mo
          /\ reads_cell (first_row_cell fund_returns_table "5") c2 ytd).
Proof.
  split; [reflexivity|]. split; [reflexivity|]. split.
  - apply etf_layout_Ret_inv.
  - apply fund_layout_Ret_inv.
Qed.

(** C1: when the ETF path raises, whatever it raised and wherever, the
    scraper goes on with the fund path in the world the ETF path left.
    If the fund path then runs to its end, it has made the calls of
    [layout_calls] with the fund locators, and the scraper returns with
    the two texts appended to the two lists. *)
Theorem etf_failure_falls_back_to_fund t (w w1 : W) e w2 :
  open_detail_page t w = (Ret tt, w1) ->
  etf_layout w1 = (Raise e, w2) ->
  scrape t w = fund_layout w2
  /\ forall one_mo ytd w3,
       fund_layout w2 = (Ret (one_mo, ytd), w3) ->
       (exists p m c1 c2,
          trace w3 = trace w2 ++ layout_calls fund_performance_xpath fund_returns_table p m c1 c2)
       /\ scraper t w = (Ret tt, recorded w3 one_mo ytd)
       /\ one_mo_vals (recorded w3 one_mo ytd) = one_mo_vals w ++ [one_mo]
       /\ ytd_vals (recorded w3 one_mo ytd) = ytd_vals w ++ [ytd].
Proof.
  intros Ho He. pose proof (scrape_etf_Raise _ _ _ _ _ Ho He) as Hs.
  split; [exact Hs|]. intros one_mo ytd w3 Hf.
  rewrite Hf in Hs. split.
  - destruct (fund_layout_Ret_inv _ _ _ _ Hf) as (p & m & c1 & c2 & Htr & _).
    exists p, m, c1, c2. exact Htr.
  - split; [apply scraper_Ret, Hs|].
    pose proof (browses_scrape t w) as (Ha & Hb & _). rewrite Hs in Ha, Hb.
    simpl in *. rewrite Ha, Hb. split; reflexivity.
Qed.

(** ** The statements before the [try] *)

Lemma advances_appends one_mo ytd :
  advances (one_mo_vals_append one_mo ;; ytd_vals_append ytd : Stmt unit).
Proof.
  intros w. apply (advanced_recorded w w one_mo ytd), browsed_refl.
Qed.

Lemma driver_get_run url (w : W) :
  driver_get url w =
  ((br_get url (driver w)).1,
   mkWorld (br_get url (driver w)).2 (trace w ++ [AGet url])
           (one_mo_vals w) (ytd_vals w) (fs w)).
Proof. unfold driver_get, call. destruct (br_get url (driver w)); reflexivity. Qed.

(** C5: whatever the world, the first call [scraper] makes on the driver
    is the load of the search prefix followed by the lower-cased ticker. *)
Theorem scraper_first_loads_search_url t (w : W) :
  exists rest,
    trace (scraper t w).2 = trace w ++ AGet (search_prefix +:+ lower t) :: rest.
Proof.
  change (search_prefix +:+ lower t) with (search_url t).
  unfold scraper, scrape, open_detail_page. rewrite !bind_assoc.
  unfold bind at 1. rewrite driver_get_run.
  destruct (br_get (search_url t) (driver w)) as [[[]|e] b]; cbn [fst snd].
  - match goal with
    | |- context [ bind ?m ?k ?w1 ] =>
        assert (Hadv : advances (bind m k)); [|destruct (Hadv w1) as (_ & (tr & Htr) & _)]
    end.
    + apply advances_bind.
      * apply browses_advances. autounfold with frames. auto 20 with frames.
      * intros _. apply advances_bind.
        -- apply browses_advances, browses_try_except;
             [apply browses_etf_layout | apply browses_fund_layout].
        -- intros [one_mo ytd]. apply advances_appends.
    + exists tr. rewrite Htr. cbn [trace]. rewrite <- app_assoc. reflexivity.
  - exists []. reflexivity.
Qed.

Lemma open_detail_page_early t (w : W) e :
  early_failure t w e ->
  exists w',
    open_detail_page t w = (Raise e, w')
    /\ (trace w' = trace w ++ [AGet (search_url t)]
        \/ trace w' = trace w ++ [AGet (search_url t); AFind XPATH link_xpath]
        \/ exists link,
             trace w' = trace w ++ [AGet (search_url t); AFind XPATH link_xpath; AClick link]).
Proof.
  intros Hearly. unfold open_detail_page.
  unfold driver_get, find_element, click, implicitly_wait, bind, call.
  destruct Hearly as [b Hg | b1 b2 Hg Hf | b1 link b2 b3 Hg Hf Hc].
  - rewrite Hg. eexists. split; [reflexivity|]. left. reflexivity.
  - rewrite Hg. cbn [driver trace]. rewrite Hf.
    eexists. split; [reflexivity|]. right. left.
    cbn [trace]. rewrite <- app_assoc. reflexivity.
  - rewrite Hg. cbn [driver trace]. rewrite Hf. cbn [driver trace]. rewrite Hc.
    eexists. split; [reflexivity|]. right. right. exists link.
    cbn [trace]. rewrite <- !app_assoc. reflexivity.
Qed.

Lemma fund_tab_is_not_the_link : fund_performance_xpath <> link_xpath.
Proof. intros Heq. apply String.eqb_eq in Heq. vm_compute in Heq. discriminate. Qed.

(** C10: a failure while loading the search URL, while locating the
    first result link or while clicking it leaves [scraper] as it is: the
    calls made are the load, the lookup of the link and the click, as far
    as they went; no locator of the fund path is looked up, and the two
    lists are as before. *)
Theorem early_failure_skips_fallback t (w : W) e :
  early_failure t w e ->
  exists w',
    scraper t w = (Raise e, w')
    /\ one_mo_vals w' = one_mo_vals w /\ ytd_vals w' = ytd_vals w
    /\ exists tr,
         trace w' = trace w ++ tr
         /\ (tr = [AGet (search_url t)]
             \/ tr = [AGet (search_url t); AFind XPATH link_xpath]
             \/ exists link, tr = [AGet (search_url t); AFind XPATH link_xpath; AClick link])
         /\ AFind XPATH fund_performance_xpath ∉ tr.
Proof.
  intros Hearly.
  destruct (open_detail_page_early _ _ _ Hearly) as (w' & Ho & Htr).
  exists w'. split; [apply scraper_Raise, scrape_open_Raise, Ho|].
  pose proof (browses_open_detail_page t w) as (Ha & Hb & _). rewrite Ho in Ha, Hb.
  split; [exact Ha|]. split; [exact Hb|].
  assert (Hne : forall x : action Elem,
            x = AFind XPATH fund_performance_xpath -> x = AFind XPATH link_xpath -> False).
  { intros x -> Heq. apply fund_tab_is_not_the_link.
    exact (f_equal (fun a => match a with AFind _ l => l | _ => EmptyString end) Heq). }
  destruct Htr as [Htr | [Htr | [link Htr]]]; eexists; (split; [exact Htr|]); split; eauto.
  - intros Hin. apply list_elem_of_singleton in Hin. discriminate.
  - intros Hin. apply elem_of_cons in Hin as [Hin | Hin]; [discriminate|].
    apply list_elem_of_singleton in Hin. eapply Hne; [reflexivity | exact Hin].
  - intros Hin. apply elem_of_cons in Hin as [Hin | Hin]; [discriminate|].
    apply elem_of_cons in Hin as [Hin | Hin].
    + eapply Hne; [reflexivity | exact Hin].
    + apply list_elem_of_singleton in Hin. discriminate.
Qed.

(** ** Page loads *)

Lemma loads_app (tr1 tr2 : list (action Elem)) :
  loads (tr1 ++ tr2) = loads tr1 ++ loads tr2.
Proof.
  induction tr1 as [|a tr1 IH]; [reflexivity|].
  destruct a; simpl; rewrite IH; reflexivity.
Qed.

Lemma loadless_ret {A} (a : A) : loadless (ret a : Stmt A).
Proof. intros w. reflexivity. Qed.

Lemma loadless_call {A} (a : action Elem) (op : B -> outcome A * B) :
  loads [a] = [] -> loadless (call a op).
Proof.
  intros Ha w. unfold call. destruct (op (driver w)) as [r b]. simpl.
  rewrite loads_app, Ha. apply app_nil_r.
Qed.

Lemma loadless_bind {A C} (m : Stmt A) (k : A -> Stmt C) :
  loadless m -> (forall a, loadless (k a)) -> loadless (bind m k).
Proof.
  intros Hm Hk w. specialize (Hm w). unfold bind.
  destruct (m w) as [[a|e] w1]; simpl in *.
  - rewrite Hk. exact Hm.
  - exact Hm.
Qed.

Lemma loadless_try_except {A} (body handler : Stmt A) :
  loadless body -> loadless handler -> loadless (try_except body handler).
Proof.
  intros Hb Hh w. specialize (Hb w). unfold try_except.
  destruct (body w) as [[a|e] w1]; simpl in *.
  - exact Hb.
  - rewrite Hh. exact Hb.
Qed.

Lemma loadless_appends one_mo ytd :
  loadless (one_mo_vals_append one_mo ;; ytd_vals_append ytd : Stmt unit).
Proof. intros w. reflexivity. Qed.

#[local] Hint Resolve loadless_ret loadless_try_except : frames.
#[local] Hint Extern 1 (loadless (bind _ _)) => apply loadless_bind; [|intros ?] : frames.
#[local] Hint Extern 1 (loadless (call _ _)) => apply loadless_call; reflexivity : frames.

Lemma loadless_etf_layout : loadless etf_layout.
Proof. unfold etf_layout. autounfold with frames. auto 30 with frames. Qed.

Lemma loadless_fund_layout : loadless fund_layout.
Proof. unfold fund_layout. autounfold with frames. auto 30 with frames. Qed.

(** Returning or raising, a call of [scraper] loads exactly one page. *)
Lemma scraper_loads t (w : W) :
  loads (trace (scraper t w).2) = loads (trace w) ++ [search_url t].
Proof.
  unfold scraper, scrape, open_detail_page. rewrite !bind_assoc.
  unfold bind at 1. rewrite driver_get_run.
  destruct (br_get (search_url t) (driver w)) as [[[]|e] b]; cbn [fst snd].
  - match goal with
    | |- context [ bind ?m ?k ?w1 ] =>
        assert (Hll : loadless (bind m k)); [|rewrite (Hll w1)]
    end.
    + apply loadless_bind.
      * autounfold with frames. auto 20 with frames.
      * intros _. apply loadless_bind.
        -- apply loadless_try_except;
             [apply loadless_etf_layout | apply loadless_fund_layout].
        -- intros [one_mo ytd]. apply loadless_appends.
    + cbn [trace]. apply loads_app.
  - cbn [trace]. apply loads_app.
Qed.

Lemma batch_loads_Ret ts (w w' : W) :
  batch ts w = (Ret tt, w') ->
  loads (trace w') = loads (trace w) ++ map search_url ts.
Proof.
  revert w. induction ts as [|t ts IH]; intros w Hb.
  - injection Hb as <-. symmetry. apply app_nil_r.
  - unfold batch in Hb. simpl in Hb. apply bind_Ret_inv in Hb as ([] & w1 & Ht & Hb).
    rewrite (IH _ Hb). pose proof (scraper_loads t w) as Hl. rewrite Ht in Hl.
    simpl in Hl. rewrite Hl, <- app_assoc. reflexivity.
Qed.

(** C3: a failure before the [try] or inside the [except] branch leaves
    [scraper] as the exception it is, and the loop stops there: the run
    over the whole ticker list ends in that exception and in the world
    the failing call left, whatever tickers follow; the pages loaded are
    those of the tickers up to the failing one and no other. *)
Theorem unhandled_failure_aborts_batch l1 t l2 (w w1 : W) e w2 :
  batch l1 w = (Ret tt, w1) ->
  unhandled t w1 e w2 ->
  scraper t w1 = (Raise e, w2)
  /\ batch (l1 ++ t :: l2) w = (Raise e, w2)
  /\ loads (trace w2) = loads (trace w) ++ map search_url (l1 ++ [t]).
Proof.
  intros Hl Hu. apply unhandled_scrape in Hu.
  pose proof (scraper_Raise _ _ _ _ Hu) as Hs.
  split; [exact Hs|]. split; [eapply batch_snoc_Raise; eassumption|].
  pose proof (scraper_loads t w1) as Hld. rewrite Hs in Hld. simpl in Hld.
  rewrite Hld, (batch_loads_Ret _ _ _ Hl), map_app, <- app_assoc. reflexivity.
Qed.

(** ** Letter case *)







(** ** The loop *)

Lemma batch_cons_Ret_inv t ts (w w' : W) :
  batch (t :: ts) w = (Ret tt, w') ->
  exists w1, scraper t w = (Ret tt, w1) /\ batch ts w1 = (Ret tt, w').
Proof.
  intros Hb. unfold batch in Hb. simpl in Hb.
  apply bind_Ret_inv in Hb as ([] & w1 & Ht & Hb). exists w1. split; assumption.
Qed.

Lemma batch_split ts i (w w' : W) :
  batch ts w = (Ret tt, w') ->
  exists wi, batch (take i ts) w = (Ret tt, wi) /\ batch (drop i ts) wi = (Ret tt, w').
Proof.
  intros Hb. rewrite <- (take_drop i ts) in Hb at 1.
  unfold batch in *. rewrite for_each_app in Hb.
  apply bind_Ret_inv in Hb as ([] & wi & Ht & Hd). exists wi. split; assumption.
Qed.

(** The lists only grow at their end, and by one value per ticker when
    the loop returns. *)
Lemma batch_lists ts (w : W) :
  exists ms ys,
    one_mo_vals (batch ts w).2 = one_mo_vals w ++ ms
    /\ ytd_vals (batch ts w).2 = ytd_vals w ++ ys
    /\ ((batch ts w).1 = Ret tt -> length ms = length ts /\ length ys = length ts).
Proof.
  revert w. induction ts as [|t ts IH]; intros w.
  - exists [], []. simpl. rewrite !app_nil_r. auto.
  - unfold batch. simpl. fold (batch ts). unfold bind.
    pose proof (scraper_lists t w) as Ht.
    destruct (scraper t w) as [[[]|e] w1].
    + destruct Ht as (m & y & Hm & Hy). destruct (IH w1) as (ms & ys & Hms & Hys & Hlen).
      exists (m :: ms), (y :: ys). rewrite Hms, Hys, Hm, Hy, <- !app_assoc.
      split; [reflexivity|]. split; [reflexivity|].
      intros Hr. destruct (Hlen Hr) as [Hl1 Hl2]. simpl. split; lia.
    + destruct Ht as [Hm Hy]. exists [], []. simpl. rewrite !app_nil_r.
      split; [exact Hm|]. split; [exact Hy|]. discriminate.
Qed.

Lemma batch_Ret_lengths ts (w w' : W) :
  batch ts w = (Ret tt, w') ->
  length (one_mo_vals w') = length (one_mo_vals w) + length ts
  /\ length (ytd_vals w') = length (ytd_vals w) + length ts.
Proof.
  intros Hb. destruct (batch_lists ts w) as (ms & ys & Hms & Hys & Hlen).
  rewrite Hb in Hms, Hys, Hlen. simpl in Hms, Hys, Hlen.
  destruct (Hlen eq_refl) as [Hlm Hly].
  rewrite Hms, Hys, !length_app, Hlm, Hly. split; reflexivity.
Qed.

Lemma batch_Ret_values ts (w w' : W) i t :
  batch ts w = (Ret tt, w') ->
  ts !! i = Some t ->
  exists one_mo ytd w1,
    scrape t (batch (take i ts) w).2 = (Ret (one_mo, ytd), w1)
    /\ one_mo_vals w' !! (length (one_mo_vals w) + i) = Some one_mo
    /\ ytd_vals w' !! (length (ytd_vals w) + i) = Some ytd.
Proof.
  intros Hb Hi.
  destruct (batch_split ts i w w' Hb) as (wi & Htake & Hdrop).
  rewrite Htake. simpl.
  rewrite (drop_S _ _ _ Hi) in Hdrop.
  apply batch_cons_Ret_inv in Hdrop as (wi' & Ht & Hrest).
  apply scraper_Ret_inv in Ht as (one_mo & ytd & w1 & Hs & ->).
  exists one_mo, ytd, w1. split; [exact Hs|].
  pose proof (browses_scrape t wi) as (Ha & Hb' & _). rewrite Hs in Ha, Hb'. simpl in Ha, Hb'.
  destruct (batch_Ret_lengths _ _ _ Htake) as [Hlm1 Hly1].
  assert (Hi' : length (take i ts) = i).
  { apply length_take_le. apply lookup_lt_Some in Hi. lia. }
  destruct (batch_lists (drop (S i) ts) (recorded w1 one_mo ytd)) as (ms2 & ys2 & Hms2 & Hys2 & _).
  rewrite Hrest in Hms2, Hys2. simpl in Hms2, Hys2.
  rewrite Ha in Hms2. rewrite Hb' in Hys2.
  rewrite Hms2, Hys2, <- !app_assoc. split.
  - apply list_lookup_middle. lia.
  - apply list_lookup_middle. lia.
Qed.

(** C6: when the loop returns, it has loaded the search pages of the
    tickers in list order, one load per ticker; each list has grown by one
    value per ticker; and the values at position [i] of the part the loop
    added are the two texts the scrape of the i-th ticker produced in the
    world the loop had reached after the first [i] tickers. *)
Theorem batch_records_in_ticker_order ts (w w' : W) :
  batch ts w = (Ret tt, w') ->
  loads (trace w') = loads (trace w) ++ map search_url ts
  /\ length (one_mo_vals w') = length (one_mo_vals w) + length ts
  /\ length (ytd_vals w') = length (ytd_vals w) + length ts
  /\ forall i t,
       ts !! i = Some t ->
       exists one_mo ytd w1,
         scrape t (batch (take i ts) w).2 = (Ret (one_mo, ytd), w1)
         /\ one_mo_vals w' !! (length (one_mo_vals w) + i) = Some one_mo
         /\ ytd_vals w' !! (length (ytd_vals w) + i) = Some ytd.
Proof.
  intros Hb. split; [apply batch_loads_Ret, Hb|].
  destruct (batch_Ret_lengths _ _ _ Hb) as [Hlm Hly].
  split; [exact Hlm|]. split; [exact Hly|].
  intros i t Hi. exact (batch_Ret_values ts w w' i t Hb Hi).
Qed.

(** ** Loading, merging and writing *)

Lemma read_csv_Ret (w : W) f df :
  fs w !! input_path = Some f ->
  pd_read_csv f = Ret df ->
  read_csv input_path w = (Ret df, w).
Proof. intros Hf Hd. unfold read_csv. rewrite Hf, Hd. reflexivity. Qed.

Lemma prepare_Ret (w : W) f df j :
  fs w !! input_path = Some f ->
  pd_read_csv f = Ret df ->
  position "Ticker" (columns df) = Some j ->
  prepare w = (Ret (df, ticker_texts j df), cleared w).
Proof.
  intros Hf Hd Hp. unfold prepare.
  rewrite (bind_Ret _ _ _ _ _ (read_csv_Ret _ _ _ Hf Hd)).
  unfold bind, reset_lists, column_values. rewrite Hp. reflexivity.
Qed.

(** Loading changes neither the session, nor the trace, nor the files. *)
Lemma prepare_keeps (w : W) r w0 :
  prepare w = (r, w0) -> driver w0 = driver w /\ trace w0 = trace w /\ fs w0 = fs w.
Proof.
  unfold prepare, bind, read_csv, reset_lists, column_values, ret, raise.
  destruct (fs w !! input_path) as [f|]; [|intros [= _ <-]; auto].
  destruct (pd_read_csv f) as [df|e]; [|intros [= _ <-]; auto].
  destruct (position "Ticker" (columns df)); intros [= _ <-]; auto.
Qed.

Lemma df_insert_Ret loc column value df (w : W) :
  column ∉ columns df ->
  length value = length (rows df) ->
  loc <= length (columns df) ->
  df_insert loc column value df w =
  (Ret (mkDataFrame (index_name df) (insert_at loc column (columns df))
          (zip_with (fun r v => (r.1, insert_at loc (text_value v) r.2)) (rows df) value)), w).
Proof.
  intros Hc Hl Hloc. unfold df_insert.
  rewrite (bool_decide_eq_false_2 _ Hc).
  assert (Hbase : match rows df, value with
                  | [], _ :: _ =>
                      imap (fun i _ => (text_value (pretty i),
                                        replicate (length (columns df)) nan_value)) value
                  | _, _ => rows df
                  end = rows df).
  { destruct (rows df), value; try reflexivity. discriminate Hl. }
  rewrite Hbase. cbv zeta.
  apply Nat.eqb_eq in Hl. rewrite Hl. apply Nat.leb_le in Hloc. rewrite Hloc.
  reflexivity.
Qed.

(** An exception of [df.insert] leaves the world as it is. *)
Lemma df_insert_keeps loc column value df (w : W) :
  (df_insert loc column value df w).2 = w.
Proof.
  unfold df_insert, raise, ret.
  destruct (bool_decide _); [reflexivity|]. cbv zeta.
  destruct (negb _); [reflexivity|]. destruct (negb _); reflexivity.
Qed.

Lemma insert_at_length {A} n (x : A) l : length (insert_at n x l) = S (length l).
Proof.
  unfold insert_at. rewrite length_app. simpl.
  rewrite length_take, length_drop. lia.
Qed.

Lemma insert_at_next {A} n (x y : A) l :
  n <= length l ->
  insert_at (S n) y (insert_at n x l) = take n l ++ x :: y :: drop n l.
Proof.
  intros Hn. unfold insert_at.
  assert (Hlen : length (take n l) = n) by (rewrite length_take; lia).
  replace (take (S n) (take n l ++ x :: drop n l)) with (take n l ++ [x]).
  - replace (drop (S n) (take n l ++ x :: drop n l)) with (drop n l).
    + rewrite <- app_assoc. reflexivity.
    + replace (S n) with (length (take n l ++ [x])) by (rewrite length_app; simpl; lia).
      replace (take n l ++ x :: drop n l) with ((take n l ++ [x]) ++ drop n l)
        by (rewrite <- app_assoc; reflexivity).
      rewrite drop_app_length. reflexivity.
  - replace (S n) with (length (take n l ++ [x])) by (rewrite length_app; simpl; lia).
    replace (take n l ++ x :: drop n l) with ((take n l ++ [x]) ++ drop n l)
      by (rewrite <- app_assoc; reflexivity).
    rewrite take_app_length. reflexivity.
Qed.

Lemma elem_of_insert_at {A} n (x y : A) l :
  y ∈ insert_at n x l -> y = x \/ y ∈ l.
Proof.
  unfold insert_at. intros Hin. apply elem_of_app in Hin as [Hin | Hin].
  - right. exact (subseteq_take n l y Hin).
  - apply elem_of_cons in Hin as [-> | Hin]; [left; reflexivity|].
    right. exact (subseteq_drop n l y Hin).
Qed.

Lemma rectangular_row f r :
  rectangular f = true -> r ∈ records f -> length r = length (header f).
Proof.
  unfold rectangular. intros Hr Hin. rewrite forallb_forall in Hr.
  apply Nat.eqb_eq, Hr, list_elem_of_In, Hin.
Qed.

Lemma lookup_map {A C} (f : A -> C) (l : list A) i :
  map f l !! i = f <$> l !! i.
Proof.
  revert i. induction l as [|x l IH]; intros [|i]; simpl; try reflexivity. apply IH.
Qed.

Lemma merge_and_write_Ret df (w1 : W) :
  "Monthly" ∉ columns df ->
  "YTD" ∉ columns df ->
  4 <= length (columns df) ->
  length (one_mo_vals w1) = length (rows df) ->
  length (ytd_vals w1) = length (rows df) ->
  merge_and_write df w1 = (Ret tt, written w1 (merged df (one_mo_vals w1) (ytd_vals w1))).
Proof.
  intros Hm Hy H4 Hlm Hly. unfold merge_and_write.
  unfold bind at 1. unfold read_one_mo_vals.
  rewrite (bind_Ret _ _ _ _ _ (df_insert_Ret 4 "Monthly" _ df w1 Hm Hlm H4)).
  unfold bind at 1. unfold read_ytd_vals.
  match goal with
  | |- bind (df_insert 5 "YTD" ?v ?df1) _ _ = _ =>
      assert (Hc : "YTD" ∉ columns df1);
      [|assert (Hl : length v = length (rows df1));
        [|assert (Hp : 5 <= length (columns df1));
          [|rewrite (bind_Ret _ _ _ _ _ (df_insert_Ret 5 "YTD" v df1 w1 Hc Hl Hp));
            reflexivity]]]
  end; cbn [columns rows].
  - intros Hin. apply elem_of_insert_at in Hin as [Heq | Hin]; [discriminate | exact (Hy Hin)].
  - rewrite length_zip_with. lia.
  - rewrite insert_at_length. lia.
Qed.

Lemma merged_header df one_mo ytd :
  4 <= length (columns df) ->
  header (merged df one_mo ytd)
  = take 4 (columns df) ++ "Monthly" :: "YTD" :: drop 4 (columns df).
Proof. intros H4. apply insert_at_next, H4. Qed.

Lemma merged_records_length df one_mo ytd :
  length one_mo = length (rows df) -> length ytd = length (rows df) ->
  length (records (merged df one_mo ytd)) = length (rows df).
Proof.
  intros Hm Hy. cbn [records merged]. rewrite length_map, !length_zip_with. lia.
Qed.

Lemma merged_row_texts (cells : list Value) m y :
  4 <= length cells ->
  map csv_text (insert_at 5 (text_value y) (insert_at 4 (text_value m) cells))
  = merged_row (map csv_text cells) m y.
Proof.
  intros H4. rewrite (insert_at_next 4 _ _ cells H4). unfold merged_row.
  rewrite map_app. simpl. rewrite <- firstn_map, <- skipn_map. reflexivity.
Qed.

Lemma merged_records_lookup df one_mo ytd i r m y :
  rows df !! i = Some r -> one_mo !! i = Some m -> ytd !! i = Some y ->
  4 <= length r.2 ->
  records (merged df one_mo ytd) !! i = Some (merged_row (map csv_text r.2) m y).
Proof.
  intros Hr Hm Hy H4. cbn [records merged].
  rewrite lookup_map, !lookup_zip_with, Hr, Hm, Hy. simpl.
  rewrite (merged_row_texts _ _ _ H4). reflexivity.
Qed.

(** The run, when the file is read into a frame that can take the two
    columns and the loop returns. *)
Lemma main_Ret (w : W) f df j w1 :
  fs w !! input_path = Some f ->
  pd_read_csv f = Ret df ->
  position "Ticker" (columns df) = Some j ->
  4 <= length (columns df) ->
  "Monthly" ∉ columns df ->
  "YTD" ∉ columns df ->
  batch (ticker_texts j df) (cleared w) = (Ret tt, w1) ->
  main w = (Ret tt, written w1 (merged df (one_mo_vals w1) (ytd_vals w1)))
  /\ length (one_mo_vals w1) = length (rows df)
  /\ length (ytd_vals w1) = length (rows df)
  /\ fs w1 = fs w.
Proof.
  intros Hf Hd Hp H4 Hm Hy Hb.
  destruct (batch_Ret_lengths _ _ _ Hb) as (Hlm & Hly).
  unfold ticker_texts in Hlm, Hly. rewrite length_map in Hlm, Hly.
  cbn [cleared one_mo_vals ytd_vals length Nat.add] in Hlm, Hly.
  destruct (advances_batch (ticker_texts j df) (cleared w)) as (Hfs & _).
  rewrite Hb in Hfs. cbn [snd cleared fs] in Hfs.
  split; [|auto].
  unfold main. rewrite (bind_Ret _ _ _ _ _ (prepare_Ret _ _ _ _ Hf Hd Hp)).
  rewrite (bind_Ret _ _ _ _ _ Hb).
  apply merge_and_write_Ret; assumption.
Qed.

(** However the run ends in an exception, the files are those it
    started with. *)
Lemma main_Raise_keeps_files (w : W) e w' :
  main w = (Raise e, w') -> fs w' = fs w.
Proof.
  unfold main, bind. destruct (prepare w) as [[[df ts]|e0] w0] eqn:Hp.
  - destruct (prepare_keeps _ _ _ Hp) as (_ & _ & Hfs0).
    destruct (advances_batch ts w0) as (Hfs1 & _).
    destruct (batch ts w0) as [[[]|e1] w1]; cbn [snd] in Hfs1.
    + unfold merge_and_write, bind, read_one_mo_vals, read_ytd_vals, to_csv.
      pose proof (df_insert_keeps 4 "Monthly" (one_mo_vals w1) df w1) as Hk1.
      destruct (df_insert 4 "Monthly" (one_mo_vals w1) df w1) as [[df1|e1] w2];
        cbn [snd] in Hk1; subst w2.
      * pose proof (df_insert_keeps 5 "YTD" (ytd_vals w1) df1 w1) as Hk2.
        destruct (df_insert 5 "YTD" (ytd_vals w1) df1 w1) as [[df2|e2] w3];
          cbn [snd] in Hk2; subst w3.
        -- discriminate.
        -- intros [= _ <-]. congruence.
      * intros [= _ <-]. congruence.
    + intros [= _ <-]. congruence.
  - intros [= _ <-]. destruct (prepare_keeps _ _ _ Hp) as (_ & _ & Hfs0). exact Hfs0.
Qed.

(** C4: when the scrape of a ticker of the table ends in an exception
    nobody handles, the run ends in that exception, in the world the
    failing call left: the files are those the run started with, so no
    output file has been written, although the earlier tickers' values
    sit in the two lists. *)
Theorem failed_scrape_writes_nothing (w : W) df l1 t l2 w0 w1 e w2 :
  prepare w = (Ret (df, l1 ++ t :: l2), w0) ->
  batch l1 w0 = (Ret tt, w1) ->
  unhandled t w1 e w2 ->
  main w = (Raise e, w2)
  /\ fs w2 = fs w
  /\ length (one_mo_vals w2) = length (one_mo_vals w0) + length l1
  /\ length (ytd_vals w2) = length (ytd_vals w0) + length l1.
Proof.
  intros Hp Hl Hu. apply unhandled_scrape in Hu.
  pose proof (scraper_Raise _ _ _ _ Hu) as Hs.
  pose proof (batch_snoc_Raise l1 t l2 _ _ _ _ Hl Hs) as Hb.
  split.
  { unfold main. rewrite (bind_Ret _ _ _ _ _ Hp). apply bind_Raise, Hb. }
  destruct (prepare_keeps _ _ _ Hp) as (_ & _ & Hfs0).
  destruct (advances_batch (l1 ++ t :: l2) w0) as (Hfs & _).
  rewrite Hb in Hfs. cbn [snd] in Hfs.
  split; [congruence|].
  destruct (batch_Ret_lengths _ _ _ Hl) as (Hlm & Hly).
  pose proof (browses_scrape t w1) as (Ha & Hb' & _). rewrite Hu in Ha, Hb'.
  cbn [snd] in Ha, Hb'. rewrite Ha, Hb'. split; assumption.
Qed.

(** C2, as the script has it: let the input file be a table, with a
    header and every data line of the header's width, that pandas reads
    into a frame with a column [Ticker], at least four columns and neither
    [Monthly] nor [YTD].  A run whose loop returns writes an output file
    with as many rows as the input file has data lines, and with the
    frame's columns plus [Monthly] and [YTD] at positions 4 and 5: the
    first column of the file, which [index_col=0] made the index and
    [index=False] leaves out, is missing, so the output has one column
    more than the input file.  Row [i] of the output holds the texts
    [to_csv] writes for the values of row [i] of the frame, with the two
    texts scraped for [str()] of its ticker value at positions 4 and 5. *)
Theorem run_writes_merged_table (w : W) f df j w1 :
  fs w !! input_path = Some f ->
  header f <> [] ->
  rectangular f = true ->
  pd_read_csv f = Ret df ->
  position "Ticker" (columns df) = Some j ->
  4 <= length (columns df) ->
  "Monthly" ∉ columns df ->
  "YTD" ∉ columns df ->
  batch (ticker_texts j df) (cleared w) = (Ret tt, w1) ->
  exists out,
    main w = (Ret tt, written w1 out)
    /\ fs (written w1 out) = <[output_path := out]> (fs w)
    /\ header out = take 4 (columns df) ++ "Monthly" :: "YTD" :: drop 4 (columns df)
    /\ length (header out) = length (header f) + 1
    /\ length (records out) = length (records f)
    /\ forall i r,
         rows df !! i = Some r ->
         exists one_mo ytd w',
           scrape (py_str (nth j r.2 nan_value))
                  (batch (take i (ticker_texts j df)) (cleared w)).2
           = (Ret (one_mo, ytd), w')
           /\ records out !! i = Some (merged_row (map csv_text r.2) one_mo ytd).
Proof.
  intros Hf Hh Hr Hd Hp H4 Hm Hy Hb.
  destruct (main_Ret _ _ _ _ _ Hf Hd Hp H4 Hm Hy Hb) as (Hmain & Hlm & Hly & Hfs).
  destruct (pd_table_read f Hh Hr) as (df' & Hd' & Hcols & Hrows & _).
  rewrite Hd in Hd'. injection Hd' as <-.
  exists (merged df (one_mo_vals w1) (ytd_vals w1)).
  split; [exact Hmain|]. split; [cbn [written fs]; rewrite Hfs; reflexivity|].
  assert (Hhd : header (merged df (one_mo_vals w1) (ytd_vals w1))
                = take 4 (columns df) ++ "Monthly" :: "YTD" :: drop 4 (columns df))
    by (apply (merged_header df), H4).
  split; [exact Hhd|]. split.
  { rewrite Hhd, <- Hcols, length_app. simpl. rewrite length_take, length_drop. lia. }
  split.
  { rewrite merged_records_length; [exact Hrows | exact Hlm | exact Hly]. }
  intros i r Hi.
  assert (Ht : ticker_texts j df !! i = Some (py_str (nth j r.2 nan_value))).
  { unfold ticker_texts. rewrite lookup_map, Hi. reflexivity. }
  destruct (batch_Ret_values _ _ _ _ _ Hb Ht) as (one_mo & ytd & w' & Hs & Hom & Hyt).
  cbn [cleared one_mo_vals ytd_vals length Nat.add] in Hom, Hyt.
  exists one_mo, ytd, w'. split; [exact Hs|].
  apply (merged_records_lookup df _ _ i r); try assumption.
  rewrite (pd_frame_rectangular f df r Hd); [exact H4|].
  eapply list_elem_of_lookup_2, Hi.
Qed.

(** * Further properties of the script *)

(** ** One call of [scraper] *)

Lemma open_detail_page_Ret_inv t (w w1 : W) :
  open_detail_page t w = (Ret tt, w1) ->
  exists link,
    trace w1 = trace w ++ [AGet (search_url t); AFind XPATH link_xpath; AClick link; AWait 5]
    /\ one_mo_vals w1 = one_mo_vals w /\ ytd_vals w1 = ytd_vals w.
Proof.
  intros Hrun. unfold open_detail_page in Hrun.
  unfold driver_get, find_element, click, implicitly_wait in Hrun.
  invert_run Hrun. apply call_Ret_inv in Hrun as (b & _ & ->).
  eexists. cbn [trace one_mo_vals ytd_vals]. rewrite <- !app_assoc.
  split; [reflexivity|]. split; reflexivity.
Qed.

Lemma locator_not_among (x : string) (tr : list (action Elem)) :
  forallb (fun a => match a with
                    | AFind _ y => negb (String.eqb x y)
                    | _ => true
                    end) tr = true ->
  AFind XPATH x ∉ tr.
Proof.
  intros Hall Hin. rewrite forallb_forall in Hall.
  apply list_elem_of_In, Hall in Hin. simpl in Hin.
  rewrite String.eqb_refl in Hin. discriminate.
Qed.

(** X1: when the ETF path runs to its end, the scraper returns with the
    two ETF texts appended to the lists; the calls it made are the load,
    the link lookup, the click, the wait and the ten calls of the ETF
    path, and the performance tab of the fund layout is never looked
    up. *)
Theorem etf_success_skips_fund t (w w1 : W) one_mo ytd w2 :
  open_detail_page t w = (Ret tt, w1) ->
  etf_layout w1 = (Ret (one_mo, ytd), w2) ->
  scraper t w = (Ret tt, recorded w2 one_mo ytd)
  /\ one_mo_vals (recorded w2 one_mo ytd) = one_mo_vals w ++ [one_mo]
  /\ ytd_vals (recorded w2 one_mo ytd) = ytd_vals w ++ [ytd]
  /\ exists link p m c1 c2,
       let calls :=
         [AGet (search_url t); AFind XPATH link_xpath; AClick link; AWait 5]
         ++ layout_calls etf_performance_xpath etf_returns_table p m c1 c2 in
       trace (recorded w2 one_mo ytd) = trace w ++ calls
       /\ AFind XPATH fund_performance_xpath ∉ calls.
Proof.
  intros Ho He.
  pose proof (scrape_etf_Ret _ _ _ _ _ Ho He) as Hs.
  split; [apply scraper_Ret, Hs|].
  pose proof (browses_scrape t w) as (Ha & Hb & _). rewrite Hs in Ha, Hb.
  cbn [snd] in Ha, Hb. cbn [recorded one_mo_vals ytd_vals trace].
  split; [rewrite Ha; reflexivity|]. split; [rewrite Hb; reflexivity|].
  destruct (open_detail_page_Ret_inv _ _ _ Ho) as (link & Htr1 & _).
  destruct (etf_layout_Ret_inv _ _ _ _ He) as (p & m & c1 & c2 & Htr2 & _).
  exists link, p, m, c1, c2. cbn zeta. split.
  - rewrite Htr2, Htr1, <- app_assoc. reflexivity.
  - apply locator_not_among. vm_compute. reflexivity.
Qed.

(** X2: the two texts a returning call appends were read from the cells
    at columns 2 and 5 of the first row of one and the same table: both
    from the ETF table or both from the fund table, never one from
    each. *)
Theorem recorded_values_come_from_one_layout t (w w' : W) :
  scraper t w = (Ret tt, w') ->
  exists one_mo ytd table c1 c2,
    (table = etf_returns_table \/ table = fund_returns_table)
    /\ reads_cell (first_row_cell table "2") c1 one_mo
    /\ reads_cell (first_row_cell table "5") c2 ytd
    /\ one_mo_vals w' = one_mo_vals w ++ [one_mo]
    /\ ytd_vals w' = ytd_vals w ++ [ytd].
Proof.
  intros Hrun. apply scraper_Ret_inv in Hrun as (one_mo & ytd & w1 & Hs & ->).
  pose proof (browses_scrape t w) as (Ha & Hb & _). rewrite Hs in Ha, Hb.
  cbn [snd] in Ha, Hb. cbn [recorded one_mo_vals ytd_vals]. rewrite Ha, Hb.
  destruct (open_detail_page t w) as [[[]|e0] w0] eqn:Ho.
  - destruct (etf_layout w0) as [[[a b]|e1] w2] eqn:He.
    + rewrite (scrape_etf_Ret _ _ _ _ _ Ho He) in Hs. injection Hs as -> -> ->.
      destruct (etf_layout_Ret_inv _ _ _ _ He) as (p & m & c1 & c2 & _ & H2 & H5).
      exists one_mo, ytd, etf_returns_table, c1, c2. auto.
    + rewrite (scrape_etf_Raise _ _ _ _ _ Ho He) in Hs.
      destruct (fund_layout_Ret_inv _ _ _ _ Hs) as (p & m & c1 & c2 & _ & H2 & H5).
      exists one_mo, ytd, fund_returns_table, c1, c2. auto.
  - rewrite (scrape_open_Raise _ _ _ _ Ho) in Hs. discriminate.
Qed.

(** ** The loop, however it ends *)

(** X3: whatever the site does, the loop has loaded the search pages of
    the first [n] tickers, in list order and once each, and has only
    appended to the two lists and left the files alone.  When it returns,
    [n] is the number of tickers and each list got [n] values; when it
    raises, the [n]-th ticker is the one that failed and each list got
    [n - 1] values. *)
Theorem batch_stops_at_first_failure ts (w : W) :
  exists n ms ys,
    n <= length ts
    /\ loads (trace (batch ts w).2) = loads (trace w) ++ map search_url (take n ts)
    /\ one_mo_vals (batch ts w).2 = one_mo_vals w ++ ms
    /\ ytd_vals (batch ts w).2 = ytd_vals w ++ ys
    /\ fs (batch ts w).2 = fs w
    /\ match (batch ts w).1 with
       | Ret _ => n = length ts /\ length ms = n /\ length ys = n
       | Raise _ => length ms + 1 = n /\ length ys + 1 = n
       end.
Proof.
  revert w. induction ts as [|t ts IH]; intros w.
  - exists 0, [], []. simpl. rewrite !app_nil_r. repeat split; reflexivity.
  - unfold batch. simpl. fold (batch ts). unfold bind.
    pose proof (scraper_lists t w) as Hl.
    pose proof (scraper_loads t w) as Hld.
    destruct (advances_scraper t w) as (Hfs & _).
    destruct (scraper t w) as [[[]|e] w1]; cbn [fst snd] in *.
    + destruct Hl as (m & y & Hm & Hy).
      destruct (IH w1) as (n & ms & ys & Hn & Hloads & Hms & Hys & Hfs1 & Hend).
      exists (S n), (m :: ms), (y :: ys).
      split; [simpl; lia|]. split.
      { rewrite Hloads, Hld, <- app_assoc. reflexivity. }
      split; [rewrite Hms, Hm, <- app_assoc; reflexivity|].
      split; [rewrite Hys, Hy, <- app_assoc; reflexivity|].
      split; [congruence|].
      destruct ((batch ts w1).1); simpl; lia.
    + destruct Hl as [Hm Hy]. exists 1, [], [].
      split; [simpl; lia|]. split; [exact Hld|].
      rewrite !app_nil_r. repeat split; auto.
Qed.

(** X4: a run that ends in an exception, wherever it was raised, leaves
    the files as they were: nothing is written and nothing is changed. *)
Theorem raising_run_keeps_files (w : W) e w' :
  main w = (Raise e, w') -> fs w' = fs w /\ fs w' !! output_path = fs w !! output_path.
Proof.
  intros Hrun. pose proof (main_Raise_keeps_files w e w' Hrun) as Hfs.
  split; [exact Hfs|]. rewrite Hfs. reflexivity.
Qed.

(** ** Loading and merging, at their edges *)

Lemma position_None name l : name ∉ l -> position name l = None.
Proof.
  induction l as [|x l IH]; intros Hn; [reflexivity|]. simpl.
  destruct (String.eqb x name) eqn:Hx.
  - apply String.eqb_eq in Hx. subst x. exfalso. apply Hn. left.
  - rewrite IH; [reflexivity|]. intros Hin. apply Hn. right. exact Hin.
Qed.

Lemma elem_of_insert_at_old {A} n (x y : A) l : y ∈ l -> y ∈ insert_at n x l.
Proof.
  intros Hin. unfold insert_at. rewrite <- (take_drop n l) in Hin.
  apply elem_of_app in Hin as [Hin | Hin]; apply elem_of_app.
  - left. exact Hin.
  - right. right. exact Hin.
Qed.

(** X5: without the input file the run ends in [FileNotFoundError] at
    once: no call is made on the driver and the world is as before. *)
Theorem missing_input_file_stops_run (w : W) :
  fs w !! input_path = None ->
  main w = (Raise (FileNotFoundError input_path), w).
Proof.
  intros Hf. unfold main. apply bind_Raise. unfold prepare. apply bind_Raise.
  unfold read_csv. rewrite Hf. reflexivity.
Qed.

(** X6: the ticker column is looked up among the columns after the
    first; when no such column is labelled [Ticker] - also when the
    first column of the file is - the run ends in [KeyError] with both
    lists empty and without a call on the driver. *)
Theorem ticker_column_is_sought_after_the_index (w : W) f name cols :
  fs w !! input_path = Some f ->
  header f = name :: cols ->
  rectangular f = true ->
  "Ticker" ∉ cols ->
  main w = (Raise (KeyError "Ticker"), cleared w)
  /\ trace (cleared w) = trace w.
Proof.
  intros Hf Hh Hr Hn. split; [|reflexivity].
  assert (Hne : header f <> []) by (rewrite Hh; discriminate).
  destruct (pd_table_read f Hne Hr) as (df & Hd & _ & _ & Hlab).
  assert (Hnot : "Ticker" ∉ columns df).
  { intros Hin. apply list_elem_of_lookup in Hin as (i & Hi).
    destruct (Hlab i _ Hi) as [Hx | Hx].
    - rewrite Hh in Hx. apply Hn. eapply list_elem_of_lookup_2. exact Hx.
    - vm_compute in Hx. discriminate Hx. }
  unfold main. apply bind_Raise. unfold prepare.
  rewrite (bind_Ret _ _ _ _ _ (read_csv_Ret _ _ _ Hf Hd)).
  unfold bind, reset_lists, column_values.
  rewrite (position_None _ _ Hnot). reflexivity.
Qed.

(** X7: a frame that cannot take the two columns - fewer than four
    columns, or a column already labelled [Monthly] or [YTD] - is only
    refused after the loop: the search page of [str()] of every ticker
    value has been loaded, then the run ends in the exception of
    [df.insert] and no file is written. *)
Theorem unfit_table_is_refused_after_the_scrape (w : W) f df j w1 :
  fs w !! input_path = Some f ->
  pd_read_csv f = Ret df ->
  position "Ticker" (columns df) = Some j ->
  batch (ticker_texts j df) (cleared w) = (Ret tt, w1) ->
  length (columns df) < 4 \/ "Monthly" ∈ columns df \/ "YTD" ∈ columns df ->
  exists e,
    main w = (Raise e, w1)
    /\ (e = ValueError "already exists" \/ e = IndexError "out of bounds")
    /\ fs w1 = fs w
    /\ loads (trace w1) = loads (trace w) ++ map search_url (ticker_texts j df).
Proof.
  intros Hf Hd Hp Hb Hunfit.
  destruct (batch_Ret_lengths _ _ _ Hb) as (Hlm & Hly).
  unfold ticker_texts in Hlm, Hly. rewrite length_map in Hlm, Hly.
  cbn [cleared one_mo_vals ytd_vals length Nat.add] in Hlm, Hly.
  destruct (advances_batch (ticker_texts j df) (cleared w)) as (Hfs & _).
  rewrite Hb in Hfs. cbn [snd cleared fs] in Hfs.
  pose proof (batch_loads_Ret _ _ _ Hb) as Hloads. cbn [cleared trace] in Hloads.
  assert (Hmerge : exists e,
             merge_and_write df w1 = (Raise e, w1)
             /\ (e = ValueError "already exists" \/ e = IndexError "out of bounds")).
  { unfold merge_and_write. unfold bind at 1. unfold read_one_mo_vals.
    destruct (decide ("Monthly" ∈ columns df)) as [Hm | Hm].
    - exists (ValueError "already exists"). split; [|left; reflexivity].
      apply bind_Raise. unfold df_insert.
      rewrite (bool_decide_eq_true_2 _ Hm). reflexivity.
    - destruct (le_lt_dec 4 (length (columns df))) as [H4 | H4].
      + assert (Hy : "YTD" ∈ columns df)
          by (destruct Hunfit as [? | [? | ?]]; [lia | tauto | assumption]).
        exists (ValueError "already exists"). split; [|left; reflexivity].
        rewrite (bind_Ret _ _ _ _ _ (df_insert_Ret 4 "Monthly" _ df w1 Hm Hlm H4)).
        unfold bind at 1. unfold read_ytd_vals. apply bind_Raise.
        unfold df_insert. cbn [columns].
        rewrite (bool_decide_eq_true_2 _
                   (elem_of_insert_at_old 4 "Monthly" "YTD" (columns df) Hy)).
        reflexivity.
      + exists (IndexError "out of bounds"). split; [|right; reflexivity].
        apply bind_Raise. unfold df_insert.
        rewrite (bool_decide_eq_false_2 _ Hm).
        assert (Hbase : match rows df, one_mo_vals w1 with
                        | [], _ :: _ =>
                            imap (fun i _ => (text_value (pretty i),
                                              replicate (length (columns df)) nan_value))
                              (one_mo_vals w1)
                        | _, _ => rows df
                        end = rows df).
        { destruct (rows df), (one_mo_vals w1); try reflexivity. discriminate Hlm. }
        rewrite Hbase. cbv zeta.
        apply Nat.eqb_eq in Hlm. rewrite Hlm. cbn [negb].
        apply Nat.leb_gt in H4. rewrite H4. reflexivity. }
  destruct Hmerge as (e & Hmw & He). exists e.
  split; [|auto].
  unfold main. rewrite (bind_Ret _ _ _ _ _ (prepare_Ret _ _ _ _ Hf Hd Hp)).
  rewrite (bind_Ret _ _ _ _ _ Hb). exact Hmw.
Qed.

(** X8: for a file with a header and no data line, read into a frame
    that can take the two columns, the driver is never called and the run
    writes the frame's labels with the two new labels and no row. *)
Theorem empty_table_needs_no_browser (w : W) f df j :
  fs w !! input_path = Some f ->
  header f <> [] ->
  records f = [] ->
  pd_read_csv f = Ret df ->
  position "Ticker" (columns df) = Some j ->
  4 <= length (columns df) ->
  "Monthly" ∉ columns df ->
  "YTD" ∉ columns df ->
  main w
  = (Ret tt,
     written (cleared w)
       (mkCsv (take 4 (columns df) ++ "Monthly" :: "YTD" :: drop 4 (columns df)) []))
  /\ trace (main w).2 = trace w.
Proof.
  intros Hf Hh Hrec Hd Hp H4 Hm Hy.
  assert (Hr : rectangular f = true) by (unfold rectangular; rewrite Hrec; reflexivity).
  destruct (pd_table_read f Hh Hr) as (df' & Hd' & _ & Hrows & _).
  rewrite Hd in Hd'. injection Hd' as <-. rewrite Hrec in Hrows.
  assert (Hnil : rows df = []) by (destruct (rows df); [reflexivity | discriminate Hrows]).
  assert (Hb : batch (ticker_texts j df) (cleared w) = (Ret tt, cleared w))
    by (unfold ticker_texts; rewrite Hnil; reflexivity).
  destruct (main_Ret _ _ _ _ _ Hf Hd Hp H4 Hm Hy Hb) as (Hmain & _).
  rewrite Hmain.
  assert (Hout : merged df (one_mo_vals (cleared w)) (ytd_vals (cleared w))
                 = mkCsv (take 4 (columns df) ++ "Monthly" :: "YTD" :: drop 4 (columns df)) []).
  { unfold merged. cbn [cleared one_mo_vals ytd_vals].
    rewrite Hnil, (insert_at_next 4 "Monthly" "YTD" (columns df) H4). reflexivity. }
  rewrite Hout. split; reflexivity.
Qed.

Lemma merged_rectangular df one_mo ytd :
  (forall r, r ∈ rows df -> length r.2 = length (columns df)) ->
  rectangular (merged df one_mo ytd) = true
  /\ length (header (merged df one_mo ytd)) = length (columns df) + 2.
Proof.
  intros Hrows. unfold rectangular, merged. cbn [header records].
  rewrite !insert_at_length. split; [|lia].
  apply forallb_forall. intros x Hin. apply Nat.eqb_eq.
  apply in_map_iff in Hin as (p & <- & Hin).
  apply list_elem_of_In, list_elem_of_lookup in Hin as (i & Hi).
  apply lookup_zip_with_Some in Hi as (q & y & -> & Hq & _).
  apply lookup_zip_with_Some in Hq as (r & m & -> & Hr & _).
  cbn [snd]. rewrite length_map, !insert_at_length.
  rewrite (Hrows r); [reflexivity|]. eapply list_elem_of_lookup_2, Hr.
Qed.

(** X9: the file a returning run writes is a table again: every row has
    as many cells as the header has labels, two more than the frame that
    was loaded had columns. *)
Theorem output_table_is_rectangular (w : W) f df j w1 :
  fs w !! input_path = Some f ->
  pd_read_csv f = Ret df ->
  position "Ticker" (columns df) = Some j ->
  4 <= length (columns df) ->
  "Monthly" ∉ columns df ->
  "YTD" ∉ columns df ->
  batch (ticker_texts j df) (cleared w) = (Ret tt, w1) ->
  exists out,
    fs (main w).2 !! output_path = Some out
    /\ rectangular out = true
    /\ length (header out) = length (columns df) + 2.
Proof.
  intros Hf Hd Hp H4 Hm Hy Hb.
  destruct (main_Ret _ _ _ _ _ Hf Hd Hp H4 Hm Hy Hb) as (Hmain & _).
  rewrite Hmain. cbn [snd written fs].
  eexists. split; [apply lookup_insert_eq|].
  apply merged_rectangular. intros r Hin.
  exact (pd_frame_rectangular f df r Hd Hin).
Qed.

(** ** The search URL *)







End Facts.

(** * The script on the recorded site *)

Example lower_ticker : lower "VfIaX" = "vfiax".
Proof. reflexivity. Qed.

Example demo_run_values :
  one_mo_vals (main Stub.demo_world).2 = ["1.23"; "0.98"]
  /\ ytd_vals (main Stub.demo_world).2 = ["10.45"; "9.11"].
Proof. split; vm_compute; reflexivity. Qed.

Ltac decide_not_in :=
  match goal with
  | |- ?x ∉ ?l => apply (bool_decide_eq_false_1 (x ∈ l)); vm_compute; reflexivity
  end.

(** C1 on the recorded site: VFIAX has the fund layout only. *)
Lemma etf_failure_falls_back_to_fund_witness :
  let w1 := (open_detail_page "VFIAX" Stub.demo_world).2 in
  let w2 := (etf_layout w1).2 in
  let w3 := (fund_layout w2).2 in
  open_detail_page "VFIAX" Stub.demo_world = (Ret tt, w1)
  /\ etf_layout w1 = (Raise (NoSuchElementException etf_performance_xpath), w2)
  /\ scraper "VFIAX" Stub.demo_world = (Ret tt, recorded w3 "0.98" "9.11")
  /\ one_mo_vals (recorded w3 "0.98" "9.11") = one_mo_vals Stub.demo_world ++ ["0.98"]
  /\ ytd_vals (recorded w3 "0.98" "9.11") = ytd_vals Stub.demo_world ++ ["9.11"].
Proof.
  intros w1 w2 w3.
  assert (Ho : open_detail_page "VFIAX" Stub.demo_world = (Ret tt, w1))
    by (vm_compute; reflexivity).
  assert (He : etf_layout w1 = (Raise (NoSuchElementException etf_performance_xpath), w2))
    by (vm_compute; reflexivity).
  assert (Hf : fund_layout w2 = (Ret ("0.98", "9.11"), w3))
    by (vm_compute; reflexivity).
  split; [exact Ho|]. split; [exact He|].
  destruct (etf_failure_falls_back_to_fund "VFIAX" Stub.demo_world w1 _ w2 Ho He)
    as [_ Hfund].
  destruct (Hfund "0.98" "9.11" w3 Hf) as (_ & Hs & Hm & Hy).
  split; [exact Hs|]. split; [exact Hm | exact Hy].
Defined.

(** C2 on the recorded site: the demo table, two tickers. *)
Lemma run_writes_merged_table_witness :
  exists out,
    main Stub.demo_world
    = (Ret tt, written (batch ["SPY"; "VFIAX"] (cleared Stub.demo_world)).2 out)
    /\ header out = ["Ticker"; "Name"; "Category"; "Price"; "Monthly"; "YTD"]
    /\ length (header out) = length (header Stub.demo_csv) + 1
    /\ length (records out) = length (records Stub.demo_csv).
Proof.
  destruct (run_writes_merged_table Stub.demo_world Stub.demo_csv
              (Stub.frame_of Stub.demo_csv) 0
              (batch ["SPY"; "VFIAX"] (cleared Stub.demo_world)).2)
    as (out & Hmain & _ & Hh & Hlh & Hlr & _).
  - vm_compute. reflexivity.
  - discriminate.
  - reflexivity.
  - reflexivity.
  - reflexivity.
  - simpl. lia.
  - decide_not_in.
  - decide_not_in.
  - vm_compute. reflexivity.
  - exists out. split; [exact Hmain|]. split; [exact Hh|]. split; [exact Hlh | exact Hlr].
Defined.

(** C2 as stated fails on the demo table: the input file has five
    columns, the output file six, not seven. *)
Lemma demo_run_adds_one_column_not_two :
  exists w' out,
    main Stub.demo_world = (Ret tt, w')
    /\ header Stub.demo_csv = ["Id"; "Ticker"; "Name"; "Category"; "Price"]
    /\ fs w' !! output_path = Some out
    /\ header out = ["Ticker"; "Name"; "Category"; "Price"; "Monthly"; "YTD"]
    /\ length (records out) = length (records Stub.demo_csv)
    /\ length (header out) <> length (header Stub.demo_csv) + 2.
Proof.
  exists (main Stub.demo_world).2.
  eexists. split; [vm_compute; reflexivity|]. split; [reflexivity|].
  split; [vm_compute; reflexivity|]. split; [reflexivity|].
  split; [reflexivity|]. simpl. lia.
Qed.

(** C3 on the recorded site: ZZZ has neither layout, VFIAX comes after it. *)
Lemma unhandled_failure_aborts_batch_witness :
  let w := Stub.demo_world in
  let w1 := (batch ["SPY"] w).2 in
  let e := NoSuchElementException fund_performance_xpath in
  let w2 := (scraper "ZZZ" w1).2 in
  scraper "ZZZ" w1 = (Raise e, w2)
  /\ batch (["SPY"] ++ "ZZZ" :: ["VFIAX"]) w = (Raise e, w2)
  /\ loads (trace w2) = loads (trace w) ++ map search_url (["SPY"] ++ ["ZZZ"]).
Proof.
  intros w w1 e w2.
  apply (unhandled_failure_aborts_batch ["SPY"] "ZZZ" ["VFIAX"] w w1 e w2).
  - vm_compute. reflexivity.
  - right. exists (open_detail_page "ZZZ" w1).2,
      (NoSuchElementException etf_performance_xpath),
      (etf_layout (open_detail_page "ZZZ" w1).2).2.
    split; [vm_compute; reflexivity|]. split; vm_compute; reflexivity.
Defined.

(** C4 on the recorded site: the table with ZZZ in the middle. *)
Lemma failed_scrape_writes_nothing_witness :
  let w := Stub.broken_world in
  let e := NoSuchElementException fund_performance_xpath in
  main w = (Raise e, (main w).2)
  /\ fs (main w).2 = fs w
  /\ fs (main w).2 !! output_path = None
  /\ one_mo_vals (main w).2 = ["1.23"].
Proof.
  intros w e.
  destruct (failed_scrape_writes_nothing w
               (Stub.frame_of Stub.broken_csv)
               ["SPY"] "ZZZ" ["VFIAX"]
               (prepare w).2 (batch ["SPY"] (prepare w).2).2 e (main w).2)
    as (Hmain & Hfs & _).
  - vm_compute. reflexivity.
  - vm_compute. reflexivity.
  - right. exists (open_detail_page "ZZZ" (batch ["SPY"] (prepare w).2).2).2,
      (NoSuchElementException etf_performance_xpath),
      (etf_layout (open_detail_page "ZZZ" (batch ["SPY"] (prepare w).2).2).2).2.
    split; [vm_compute; reflexivity|]. split; vm_compute; reflexivity.
  - split; [exact Hmain|]. split; [exact Hfs|].
    split; vm_compute; reflexivity.
Defined.

(** C6 on the recorded site: two tickers, their values at positions 0 and 1. *)
Lemma batch_records_in_ticker_order_witness :
  let w := Stub.demo_world in
  let w' := (batch ["SPY"; "VFIAX"] w).2 in
  batch ["SPY"; "VFIAX"] w = (Ret tt, w')
  /\ loads (trace w') = loads (trace w) ++ map search_url ["SPY"; "VFIAX"]
  /\ length (one_mo_vals w') = 2
  /\ length (ytd_vals w') = 2
  /\ exists one_mo ytd w1,
       scrape "VFIAX" (batch (take 1 ["SPY"; "VFIAX"]) w).2 = (Ret (one_mo, ytd), w1)
       /\ one_mo_vals w' !! 1 = Some one_mo
       /\ ytd_vals w' !! 1 = Some ytd.
Proof.
  intros w w'.
  assert (Hb : batch ["SPY"; "VFIAX"] w = (Ret tt, w')) by (vm_compute; reflexivity).
  destruct (batch_records_in_ticker_order ["SPY"; "VFIAX"] w w' Hb)
    as (Hloads & Hlm & Hly & Hval).
  split; [exact Hb|]. split; [exact Hloads|].
  split; [exact Hlm|]. split; [exact Hly|].
  apply (Hval 1 "VFIAX"). reflexivity.
Defined.

(** C7 on the recorded site: the calls of the ETF path for SPY and of the
    fund path for VFIAX. *)
Lemma layouts_share_toggle_and_cells_witness :
  let w := (open_detail_page "SPY" Stub.demo_world).2 in
  let v := (etf_layout (open_detail_page "VFIAX" Stub.demo_world).2).2 in
  (exists p m c1 c2,
     trace (etf_layout w).2
     = trace w ++ layout_calls etf_performance_xpath etf_returns_table p m c1 c2
     /\ reads_cell (first_row_cell etf_returns_table "2") c1 "1.23"
     /\ reads_cell (first_row_cell etf_returns_table "5") c2 "10.45")
  /\ (exists p m c1 c2,
        trace (fund_layout v).2
        = trace v ++ layout_calls fund_performance_xpath fund_returns_table p m c1 c2
        /\ reads_cell (first_row_cell fund_returns_table "2") c1 "0.98"
        /\ reads_cell (first_row_cell fund_returns_table "5") c2 "9.11").
Proof.
  intros w v.
  destruct (@layouts_share_toggle_and_cells Stub.session string Stub.browser)
    as (_ & _ & Hetf & Hfund).
  split.
  - apply (Hetf w "1.23" "10.45" (etf_layout w).2). vm_compute. reflexivity.
  - apply (Hfund v "0.98" "9.11" (fund_layout v).2). vm_compute. reflexivity.
Defined.



(** C10 on the recorded site: the site does not know the search page of
    NOPE, so the load itself raises. *)
Lemma early_failure_skips_fallback_witness :
  let w := Stub.demo_world in
  let e := WebDriverException (search_url "NOPE") in
  early_failure "NOPE" w e
  /\ exists w',
       scraper "NOPE" w = (Raise e, w')
       /\ one_mo_vals w' = one_mo_vals w /\ ytd_vals w' = ytd_vals w
       /\ exists tr,
            trace w' = trace w ++ tr
            /\ (tr = [AGet (search_url "NOPE")]
                \/ tr = [AGet (search_url "NOPE"); AFind XPATH link_xpath]
                \/ exists link,
                     tr = [AGet (search_url "NOPE"); AFind XPATH link_xpath; AClick link])
            /\ AFind XPATH fund_performance_xpath ∉ tr.
Proof.
  intros w e.
  assert (Hearly : early_failure "NOPE" w e).
  { apply (fail_get "NOPE" w e (Stub.mkSession Stub.demo_site [])).
    vm_compute. reflexivity. }
  split; [exact Hearly|]. apply (early_failure_skips_fallback "NOPE" w e Hearly).
Defined.

(** * The further properties on the recorded site *)

(** X1 at SPY, which has the ETF layout. *)
Lemma etf_success_skips_fund_witness :
  let w := Stub.demo_world in
  let w1 := (open_detail_page "SPY" w).2 in
  let w2 := (etf_layout w1).2 in
  open_detail_page "SPY" w = (Ret tt, w1)
  /\ etf_layout w1 = (Ret ("1.23", "10.45"), w2)
  /\ scraper "SPY" w = (Ret tt, recorded w2 "1.23" "10.45")
  /\ one_mo_vals (recorded w2 "1.23" "10.45") = one_mo_vals w ++ ["1.23"]
  /\ ytd_vals (recorded w2 "1.23" "10.45") = ytd_vals w ++ ["10.45"].
Proof.
  intros w w1 w2.
  assert (Ho : open_detail_page "SPY" w = (Ret tt, w1)) by (vm_compute; reflexivity).
  assert (He : etf_layout w1 = (Ret ("1.23", "10.45"), w2)) by (vm_compute; reflexivity).
  split; [exact Ho|]. split; [exact He|].
  destruct (etf_success_skips_fund "SPY" w w1 "1.23" "10.45" w2 Ho He)
    as (Hs & Hm & Hy & _).
  split; [exact Hs|]. split; [exact Hm | exact Hy].
Defined.

(** X2 at VFIAX, whose values come from the fund table. *)
Lemma recorded_values_come_from_one_layout_witness :
  let w := Stub.demo_world in
  let w' := (scraper "VFIAX" w).2 in
  scraper "VFIAX" w = (Ret tt, w')
  /\ exists one_mo ytd table c1 c2,
       (table = etf_returns_table \/ table = fund_returns_table)
       /\ reads_cell (first_row_cell table "2") c1 one_mo
       /\ reads_cell (first_row_cell table "5") c2 ytd
       /\ one_mo_vals w' = one_mo_vals w ++ [one_mo]
       /\ ytd_vals w' = ytd_vals w ++ [ytd].
Proof.
  intros w w'.
  assert (Hs : scraper "VFIAX" w = (Ret tt, w')) by (vm_compute; reflexivity).
  split; [exact Hs|]. apply (recorded_values_come_from_one_layout "VFIAX" w w' Hs).
Defined.

(** X4 on the table with ZZZ in the middle. *)
Lemma raising_run_keeps_files_witness :
  let w := Stub.broken_world in
  let e := NoSuchElementException fund_performance_xpath in
  main w = (Raise e, (main w).2)
  /\ fs (main w).2 = fs w
  /\ fs (main w).2 !! output_path = fs w !! output_path.
Proof.
  intros w e.
  assert (Hrun : main w = (Raise e, (main w).2)) by (vm_compute; reflexivity).
  split; [exact Hrun|]. apply (raising_run_keeps_files w e (main w).2 Hrun).
Defined.

(** X5 in a world without files. *)
Lemma missing_input_file_stops_run_witness :
  let w : World Stub.session string :=
    mkWorld (Stub.mkSession Stub.demo_site []) [] [] [] ∅ in
  fs w !! input_path = None
  /\ main w = (Raise (FileNotFoundError input_path), w).
Proof.
  intros w.
  assert (Hf : fs w !! input_path = None) by reflexivity.
  split; [exact Hf|]. apply (missing_input_file_stops_run w Hf).
Defined.

(** X6 on a table whose first column is the ticker column. *)
Lemma ticker_column_is_sought_after_the_index_witness :
  let w := Stub.world_with Stub.ticker_first_csv in
  main w = (Raise (KeyError "Ticker"), cleared w)
  /\ trace (cleared w) = trace w.
Proof.
  intros w.
  apply (ticker_column_is_sought_after_the_index w Stub.ticker_first_csv
           "Ticker" ["Name"; "Category"; "Price"; "Volume"]).
  - vm_compute. reflexivity.
  - reflexivity.
  - reflexivity.
  - decide_not_in.
Defined.

(** X7 on a table with three columns after the first. *)
Lemma unfit_table_is_refused_after_the_scrape_witness :
  let w := Stub.world_with Stub.narrow_csv in
  let w1 := (batch ["SPY"; "VFIAX"] (cleared w)).2 in
  exists e,
    main w = (Raise e, w1)
    /\ (e = ValueError "already exists" \/ e = IndexError "out of bounds")
    /\ fs w1 = fs w
    /\ loads (trace w1) = loads (trace w) ++ map search_url ["SPY"; "VFIAX"].
Proof.
  intros w w1.
  apply (unfit_table_is_refused_after_the_scrape w Stub.narrow_csv
           (Stub.frame_of Stub.narrow_csv) 0 w1).
  - vm_compute. reflexivity.
  - reflexivity.
  - reflexivity.
  - vm_compute. reflexivity.
  - left. simpl. lia.
Defined.

(** X8 on a table with a header and no row. *)
Lemma empty_table_needs_no_browser_witness :
  let w := Stub.world_with Stub.empty_csv in
  main w
  = (Ret tt,
     written (cleared w)
       (mkCsv (take 4 ["Ticker"; "Name"; "Category"; "Price"]
               ++ "Monthly" :: "YTD" :: drop 4 ["Ticker"; "Name"; "Category"; "Price"]) []))
  /\ trace (main w).2 = trace w.
Proof.
  intros w.
  apply (empty_table_needs_no_browser w Stub.empty_csv (Stub.frame_of Stub.empty_csv) 0).
  - vm_compute. reflexivity.
  - discriminate.
  - reflexivity.
  - reflexivity.
  - reflexivity.
  - simpl. lia.
  - decide_not_in.
  - decide_not_in.
Defined.

(** X9 on the demo table. *)
Lemma output_table_is_rectangular_witness :
  exists out,
    fs (main Stub.demo_world).2 !! output_path = Some out
    /\ rectangular out = true
    /\ length (header out) = 6.
Proof.
  apply (output_table_is_rectangular Stub.demo_world Stub.demo_csv
           (Stub.frame_of Stub.demo_csv) 0
           (batch ["SPY"; "VFIAX"] (cleared Stub.demo_world)).2).
  - vm_compute. reflexivity.
  - reflexivity.
  - reflexivity.
  - simpl. lia.
  - decide_not_in.
  - decide_not_in.
  - vm_compute. reflexivity.
Defined.


